(** * Viral Lab: the campaign generator's services and application shell

    A shallow embedding of [src/services/geminiService.ts], of the state
    handlers of [src/App.tsx] and of the interfaces of the types file, with
    the properties of the specification proved over it.

    Conventions.
    - A JavaScript string is a [string] (a sequence of bytes, UTF-8).
    - A value the TypeScript types call [ProductAnalysis] or [string[]] but
      that comes out of [JSON.parse] is a [JSON] value: nothing in the code
      checks its shape, so the model keeps the run-time value.
    - [undefined] and absent properties are [None]; [null] inside JSON is
      [JNull].
    - An [async] function is a function to [Outcome]: [Returned v] for a
      promise that resolves with [v], [Threw e] for one that rejects with [e].
      The answers of the provider, of the network and of the browser are
      inputs of the model. *)

From Stdlib Require Import ZArith List String Ascii Bool Arith Lia.
Import ListNotations.

Set Warnings "-register-all".

Local Open Scope string_scope.
Local Open Scope list_scope.
Local Open Scope nat_scope.

(** ** Exceptions and outcomes *)

(** What a [catch] clause can receive.  [message] is the [message] property
    the video handler inspects. *)
Inductive JsError : Type :=
| ProviderError (message : option string) (* a rejected SDK, network or browser call *)
| TypeError (message : string)            (* raised by the language run time *)
| SyntaxError (message : string)          (* raised by [JSON.parse] *)
| Error (message : string).               (* [new Error(message)] in the source *)

Definition errorMessage (e : JsError) : option string :=
  match e with
  | ProviderError m => m
  | TypeError m => Some m
  | SyntaxError m => Some m
  | Error m => Some m
  end.

Inductive Outcome (A : Type) : Type :=
| Returned (a : A)
| Threw (e : JsError).

Arguments Returned {A} a.
Arguments Threw {A} e.

Definition bind {A B : Type} (m : Outcome A) (k : A -> Outcome B) : Outcome B :=
  match m with
  | Returned a => k a
  | Threw e => Threw e
  end.

Notation "x <- m ;; k" := (bind m (fun x => k))
  (at level 61, m at next level, right associativity).

(** ** JSON values *)

(** A number keeps the text of its literal: its numeric value is needed only
    to tell zero from non-zero.  In an object the members stay in source
    order, duplicates included; a later member shadows an earlier one. *)
Inductive JSON : Type :=
| JNull
| JBool (b : bool)
| JNum (literal : string)
| JStr (s : string)
| JArr (items : list JSON)
| JObj (members : list (string * JSON)).

(** [o[k]] for an object built by [JSON.parse]: the last member named [k]. *)
Fixpoint lookup (k : string) (members : list (string * JSON)) : option JSON :=
  match members with
  | [] => None
  | (k', v) :: rest =>
      match lookup k rest with
      | Some v' => Some v'
      | None => if String.eqb k k' then Some v else None
      end
  end.

(** *** [JSON.parse] *)

Definition quote : ascii := ascii_of_nat 34.

Definition isWs (c : ascii) : bool :=
  let n := nat_of_ascii c in
  (n =? 32) || (n =? 9) || (n =? 10) || (n =? 13).

Definition isDigit (c : ascii) : bool :=
  let n := nat_of_ascii c in (48 <=? n) && (n <=? 57).

Definition hexValue (c : ascii) : option nat :=
  let n := nat_of_ascii c in
  if (48 <=? n) && (n <=? 57) then Some (n - 48)
  else if (65 <=? n) && (n <=? 70) then Some (n - 55)
  else if (97 <=? n) && (n <=? 102) then Some (n - 87)
  else None.

Fixpoint skipWs (cs : list ascii) : list ascii :=
  match cs with
  | c :: rest => if isWs c then skipWs rest else cs
  | [] => []
  end.

(** The UTF-8 bytes of a code point (of a lone surrogate too, in the same
    three-byte form). *)
Definition utf8 (u : N) : list ascii :=
  if (u <? 128)%N then [ascii_of_N u]
  else if (u <? 2048)%N then
    [ascii_of_N (192 + u / 64); ascii_of_N (128 + u mod 64)]
  else if (u <? 65536)%N then
    [ascii_of_N (224 + u / 4096);
     ascii_of_N (128 + (u / 64) mod 64);
     ascii_of_N (128 + u mod 64)]
  else
    [ascii_of_N (240 + u / 262144);
     ascii_of_N (128 + (u / 4096) mod 64);
     ascii_of_N (128 + (u / 64) mod 64);
     ascii_of_N (128 + u mod 64)].

(** The code unit written with four hexadecimal digits. *)
Definition hex4 (h1 h2 h3 h4 : ascii) : option N :=
  match hexValue h1, hexValue h2, hexValue h3, hexValue h4 with
  | Some a, Some b, Some c, Some d =>
      Some (((N.of_nat a * 16 + N.of_nat b) * 16 + N.of_nat c) * 16
            + N.of_nat d)%N
  | _, _, _, _ => None
  end.

(** The code point of the surrogate pair that the high surrogate [hi] makes
    with the six characters after its escape, when these are the escape of a
    low surrogate. *)
Definition pairedWith (hi : N) (b u l1 l2 l3 l4 : ascii) : option N :=
  if (55296 <=? hi)%N && (hi <=? 56319)%N
     && Ascii.eqb b "\" && Ascii.eqb u "u" then
    match hex4 l1 l2 l3 l4 with
    | Some lo =>
        if (56320 <=? lo)%N && (lo <=? 57343)%N then
          Some (65536 + (hi - 55296) * 1024 + (lo - 56320))%N
        else None
    | None => None
    end
  else None.

(** The characters after an opening quote, up to the closing one. [acc] holds
    the decoded characters read so far, last first.  The escapes of a
    surrogate pair are decoded together, to the one code point they stand
    for. *)
Fixpoint parseChars (cs : list ascii) (acc : list ascii)
  : option (string * list ascii) :=
  match cs with
  | [] => None
  | c :: rest =>
      if Ascii.eqb c quote then Some (string_of_list_ascii (rev acc), rest)
      else if Ascii.eqb c "\" then
        match rest with
        | e :: rest' =>
            if Ascii.eqb e "u" then
              match rest' with
              | h1 :: h2 :: h3 :: h4 :: rest'' =>
                  match hex4 h1 h2 h3 h4 with
                  | Some unit =>
                      match rest'' with
                      | b :: u :: l1 :: l2 :: l3 :: l4 :: rest3 =>
                          match pairedWith unit b u l1 l2 l3 l4 with
                          | Some point =>
                              parseChars rest3 (rev (utf8 point) ++ acc)
                          | None => parseChars rest'' (rev (utf8 unit) ++ acc)
                          end
                      | _ => parseChars rest'' (rev (utf8 unit) ++ acc)
                      end
                  | None => None
                  end
              | _ => None
              end
            else
              let simple (x : nat) := parseChars rest' (ascii_of_nat x :: acc) in
              if Ascii.eqb e quote then simple 34
              else if Ascii.eqb e "\" then simple 92
              else if Ascii.eqb e "/" then simple 47
              else if Ascii.eqb e "b" then simple 8
              else if Ascii.eqb e "f" then simple 12
              else if Ascii.eqb e "n" then simple 10
              else if Ascii.eqb e "r" then simple 13
              else if Ascii.eqb e "t" then simple 9
              else None
        | [] => None
        end
      else if nat_of_ascii c <? 32 then None
      else parseChars rest (c :: acc)
  end.

Fixpoint spanDigits (cs : list ascii) : list ascii * list ascii :=
  match cs with
  | c :: rest =>
      if isDigit c then let (ds, r) := spanDigits rest in (c :: ds, r)
      else ([], cs)
  | [] => ([], [])
  end.

(** A number literal: an optional minus sign; then a single 0, or a digit
    from 1 to 9 followed by any digits; then optionally a point and at least
    one digit; then optionally e or E, an optional sign and at least one
    digit. *)
Definition parseNumber (cs : list ascii) : option (string * list ascii) :=
  let (sign, cs1) :=
    match cs with
    | c :: rest => if Ascii.eqb c "-" then ([c], rest) else ([], cs)
    | [] => ([], cs)
    end in
  let intPart :=
    match cs1 with
    | c :: rest =>
        if Ascii.eqb c "0" then Some ([c], rest)
        else if isDigit c then let (ds, r) := spanDigits rest in Some (c :: ds, r)
        else None
    | [] => None
    end in
  match intPart with
  | None => None
  | Some (ip, cs2) =>
      let frac :=
        match cs2 with
        | c :: rest =>
            if Ascii.eqb c "." then
              match spanDigits rest with
              | ([], _) => None
              | (ds, r) => Some (c :: ds, r)
              end
            else Some ([], cs2)
        | [] => Some ([], cs2)
        end in
      match frac with
      | None => None
      | Some (fp, cs3) =>
          let expo :=
            match cs3 with
            | c :: rest =>
                if Ascii.eqb c "e" || Ascii.eqb c "E" then
                  let (sg, rest') :=
                    match rest with
                    | s :: r =>
                        if Ascii.eqb s "+" || Ascii.eqb s "-" then ([s], r)
                        else ([], rest)
                    | [] => ([], rest)
                    end in
                  match spanDigits rest' with
                  | ([], _) => None
                  | (ds, r) => Some (c :: sg ++ ds, r)
                  end
                else Some ([], cs3)
            | [] => Some ([], cs3)
            end in
          match expo with
          | None => None
          | Some (ep, cs4) =>
              Some (string_of_list_ascii (sign ++ ip ++ fp ++ ep), cs4)
          end
      end
  end.

Fixpoint dropPrefix (p cs : list ascii) : option (list ascii) :=
  match p, cs with
  | [], _ => Some cs
  | a :: p', c :: cs' => if Ascii.eqb a c then dropPrefix p' cs' else None
  | _ :: _, [] => None
  end.

Inductive ParseResult : Type :=
| Parsed (v : JSON) (rest : list ascii)
| Rejected
| OutOfFuel.

Fixpoint parseValue (fuel : nat) (cs : list ascii) {struct fuel} : ParseResult :=
  match fuel with
  | O => OutOfFuel
  | S fuel' =>
      match skipWs cs with
      | [] => Rejected
      | c :: rest =>
          if Ascii.eqb c "{" then
            match skipWs rest with
            | c' :: rest' =>
                if Ascii.eqb c' "}" then Parsed (JObj []) rest'
                else parseMembers fuel' rest []
            | [] => Rejected
            end
          else if Ascii.eqb c "[" then
            match skipWs rest with
            | c' :: rest' =>
                if Ascii.eqb c' "]" then Parsed (JArr []) rest'
                else parseElements fuel' rest []
            | [] => Rejected
            end
          else if Ascii.eqb c quote then
            match parseChars rest [] with
            | Some (s, rest') => Parsed (JStr s) rest'
            | None => Rejected
            end
          else if Ascii.eqb c "t" then
            match dropPrefix (list_ascii_of_string "rue") rest with
            | Some rest' => Parsed (JBool true) rest'
            | None => Rejected
            end
          else if Ascii.eqb c "f" then
            match dropPrefix (list_ascii_of_string "alse") rest with
            | Some rest' => Parsed (JBool false) rest'
            | None => Rejected
            end
          else if Ascii.eqb c "n" then
            match dropPrefix (list_ascii_of_string "ull") rest with
            | Some rest' => Parsed JNull rest'
            | None => Rejected
            end
          else
            match parseNumber (c :: rest) with
            | Some (lit, rest') => Parsed (JNum lit) rest'
            | None => Rejected
            end
      end
  end

with parseElements (fuel : nat) (cs : list ascii) (acc : list JSON)
  {struct fuel} : ParseResult :=
  match fuel with
  | O => OutOfFuel
  | S fuel' =>
      match parseValue fuel' cs with
      | Parsed v rest =>
          match skipWs rest with
          | c :: rest' =>
              if Ascii.eqb c "," then parseElements fuel' rest' (v :: acc)
              else if Ascii.eqb c "]" then Parsed (JArr (rev (v :: acc))) rest'
              else Rejected
          | [] => Rejected
          end
      | r => r
      end
  end

with parseMembers (fuel : nat) (cs : list ascii) (acc : list (string * JSON))
  {struct fuel} : ParseResult :=
  match fuel with
  | O => OutOfFuel
  | S fuel' =>
      match skipWs cs with
      | q :: rest =>
          if Ascii.eqb q quote then
            match parseChars rest [] with
            | Some (k, rest1) =>
                match skipWs rest1 with
                | colon :: rest2 =>
                    if Ascii.eqb colon ":" then
                      match parseValue fuel' rest2 with
                      | Parsed v rest3 =>
                          match skipWs rest3 with
                          | c :: rest4 =>
                              if Ascii.eqb c "," then
                                parseMembers fuel' rest4 ((k, v) :: acc)
                              else if Ascii.eqb c "}" then
                                Parsed (JObj (rev ((k, v) :: acc))) rest4
                              else Rejected
                          | [] => Rejected
                          end
                      | r => r
                      end
                    else Rejected
                | [] => Rejected
                end
            | None => Rejected
            end
          else Rejected
      | [] => Rejected
      end
  end.

(** [JSON.parse(text)]: one value, white space around it, nothing else.  The
    fuel is twice the length of the text, which the recursion never uses up
    (lemma [JSON_parse_fuel] below). *)
Definition parseText (text : string) : ParseResult :=
  let cs := list_ascii_of_string text in
  parseValue (S (2 * List.length cs)) cs.

Definition JSON_parse (text : string) : Outcome JSON :=
  match parseText text with
  | Parsed v rest =>
      match skipWs rest with
      | [] => Returned v
      | _ :: _ => Threw (SyntaxError "Unexpected non-whitespace character after JSON")
      end
  | _ => Threw (SyntaxError "Unexpected token")
  end.

(** ** The run-time operations the source applies to JSON values *)

Definition digitsValue (ds : list ascii) : Z :=
  fold_left (fun acc c => (acc * 10 + Z.of_nat (nat_of_ascii c - 48))%Z) ds 0%Z.

Definition isExpMark (c : ascii) : bool := Ascii.eqb c "e" || Ascii.eqb c "E".

Fixpoint splitAt (p : ascii -> bool) (cs : list ascii)
  : list ascii * list ascii :=
  match cs with
  | [] => ([], [])
  | c :: rest =>
      if p c then ([], rest)
      else let (a, b) := splitAt p rest in (c :: a, b)
  end.

(** Whether a number literal denotes zero as a double: its value is at most
    2^-1075, the half of the smallest positive double, which rounding to
    nearest (ties to even) sends to zero. *)
Definition numberIsZero (literal : string) : bool :=
  let unsigned (cs : list ascii) :=
    filter (fun c => negb (Ascii.eqb c "+" || Ascii.eqb c "-")) cs in
  let (mant, expo) := splitAt isExpMark (list_ascii_of_string literal) in
  let (intDigits, fracDigits) := splitAt (Ascii.eqb ".") (unsigned mant) in
  let m := digitsValue (intDigits ++ fracDigits) in
  let e :=
    match expo with
    | c :: _ =>
        if Ascii.eqb c "-" then (- digitsValue (unsigned expo))%Z
        else digitsValue (unsigned expo)
    | [] => 0%Z
    end in
  let e10 := (e - Z.of_nat (List.length fracDigits))%Z in
  if (0 <=? e10)%Z then (m =? 0)%Z
  else (m * 2 ^ 1075 <=? 10 ^ (- e10))%Z.

(** [!!v]: the falsy values are [null], [false], zero and the empty string. *)
Definition truthy (v : JSON) : bool :=
  match v with
  | JNull => false
  | JBool b => b
  | JNum literal => negb (numberIsZero literal)
  | JStr s => negb (String.eqb s "")
  | JArr _ => true
  | JObj _ => true
  end.

Definition truthyString (s : option string) : bool :=
  match s with
  | Some s' => negb (String.eqb s' "")
  | None => false
  end.

(** [s || d] on an optional string. *)
Definition orString (s : option string) (d : string) : string :=
  match s with
  | Some s' => if String.eqb s' "" then d else s'
  | None => d
  end.

Fixpoint hasMember (k : string) (members : list (string * JSON)) : bool :=
  match members with
  | [] => false
  | (k', _) :: rest => String.eqb k k' || hasMember k rest
  end.

(** Whether [String(v)] returns.  A parsed object inherits
    [Object.prototype.toString] unless a member of its own is called
    [toString]; such a member is never a function, the inherited [valueOf]
    returns the object itself, and the conversion throws.  An array joins the
    conversions of its items. *)
Fixpoint stringifies (v : JSON) : bool :=
  match v with
  | JObj members => negb (hasMember "toString" members)
  | JArr items => forallb stringifies items
  | _ => true
  end.

Definition cannotConvert : JsError :=
  TypeError "Cannot convert object to primitive value".

(** [v.k], for the field names of [ProductAnalysis], which no prototype
    defines: only an object can have them; [null.k] throws. *)
Definition getProp (v : JSON) (k : string) : Outcome (option JSON) :=
  match v with
  | JNull => Threw (TypeError "Cannot read properties of null")
  | JObj members => Returned (lookup k members)
  | _ => Returned None
  end.

(** A value interpolated in a template literal; [undefined] prints. *)
Definition interpolate (x : option JSON) : Outcome unit :=
  match x with
  | Some v => if stringifies v then Returned tt else Threw cannotConvert
  | None => Returned tt
  end.

(** [x.join(sep)]: only arrays have a [join] that can be called. *)
Definition join (x : option JSON) : Outcome unit :=
  match x with
  | None => Threw (TypeError "Cannot read properties of undefined (reading 'join')")
  | Some JNull => Threw (TypeError "Cannot read properties of null (reading 'join')")
  | Some (JArr items) =>
      if forallb stringifies items then Returned tt else Threw cannotConvert
  | Some _ => Threw (TypeError "join is not a function")
  end.

(** [x[0]]: the first item of an array, the first character of a string, the
    member named 0 of an object. *)
Definition index0 (x : option JSON) : Outcome (option JSON) :=
  match x with
  | None => Threw (TypeError "Cannot read properties of undefined (reading '0')")
  | Some JNull => Threw (TypeError "Cannot read properties of null (reading '0')")
  | Some (JArr items) => Returned (hd_error items)
  | Some (JStr (String c _)) => Returned (Some (JStr (String c "")))
  | Some (JObj members) => Returned (lookup "0" members)
  | Some _ => Returned None
  end.

(** ** The interfaces of the types file *)

Definition isString (x : option JSON) : bool :=
  match x with Some (JStr _) => true | _ => false end.

Definition isStringArray (x : option JSON) : bool :=
  match x with
  | Some (JArr items) =>
      forallb (fun v => match v with JStr _ => true | _ => false end) items
  | _ => false
  end.

(** A value is a [ProductAnalysis] when it is an object whose five fields are
    populated with values of their declared types. *)
Definition isProductAnalysis (v : JSON) : bool :=
  match v with
  | JObj members =>
      isString (lookup "productName" members)
      && isString (lookup "productType" members)
      && isStringArray (lookup "materials" members)
      && isStringArray (lookup "primaryColors" members)
      && isString (lookup "targetAudience" members)
  | _ => false
  end.

Record LoadingState : Type := {
  analyzing : bool;
  generatingImage : bool;
  writingScript : bool;
  ideatingBRoll : bool;
  generatingVideo : bool
}.

(** [bRollConcepts] holds what [JSON.parse] returned; its [null] is [JNull]. *)
Module CreativeAssets.
Record t : Type := {
  originalImage : option string;
  lifestyleImage : option string;
  tiktokScript : option string;
  bRollConcepts : JSON;
  productVideoUrl : option string
}.
End CreativeAssets.

(** ** The provider's answers, as far as the source reads them *)

Record InlineData : Type := { data : option string }.
Record Part : Type := { inlineData : option InlineData }.
Record Content : Type := { parts : option (list Part) }.
Record Candidate : Type := { content : option Content }.
Record GenerateContentResponse : Type := {
  candidates : option (list Candidate);
  text : option string
}.

Record Video : Type := { uri : option string }.
Record GeneratedVideo : Type := { video : option Video }.
Record GenerateVideosResponse : Type := {
  generatedVideos : option (list GeneratedVideo)
}.
Record Operation : Type := {
  done : bool;
  response : option GenerateVideosResponse
}.

(** ** The service functions (geminiService.ts) *)

(** The text of a prompt and the image payload
    ([base64Image.split(',')[1] || base64Image]) reach only the provider,
    whose answer is an input of the model.  What is kept of a template
    literal is its effect on control: the property reads and conversions that
    can throw, in order. *)

(** [`${x}`] for an optional string: [undefined] prints as its name. *)
Definition showString (x : option string) : string :=
  match x with Some s => s | None => "undefined" end.

(** *** analyzeProductImage *)

Definition analyzeProductImage (base64Image : string)
    (generateContent : Outcome GenerateContentResponse) : Outcome JSON :=
  response <- generateContent ;;
  JSON_parse (orString (text response) "{}").

(** *** generateLifestyleImage *)

Definition lifestylePrompt (analysis : JSON) : Outcome unit :=
  productName <- getProp analysis "productName" ;;
  _ <- interpolate productName ;;
  productType <- getProp analysis "productType" ;;
  _ <- interpolate productType ;;
  materials <- getProp analysis "materials" ;;
  _ <- join materials ;;
  primaryColors <- getProp analysis "primaryColors" ;;
  join primaryColors.

(** [response.candidates?.[0]?.content?.parts || []] *)
Definition responseParts (response : GenerateContentResponse) : list Part :=
  match candidates response with
  | Some (candidate :: _) =>
      match content candidate with
      | Some c => match parts c with Some ps => ps | None => [] end
      | None => []
      end
  | _ => []
  end.

(** The [for] loop over the parts and the [throw] after it. *)
Fixpoint firstImage (ps : list Part) : Outcome string :=
  match ps with
  | [] => Threw (Error "No image generated")
  | part :: rest =>
      match inlineData part with
      | Some d =>
          Returned (String.append "data:image/png;base64," (showString (data d)))
      | None => firstImage rest
      end
  end.

Definition generateLifestyleImage (base64Image : string) (analysis : JSON)
    (generateContent : Outcome GenerateContentResponse) : Outcome string :=
  _ <- lifestylePrompt analysis ;;
  response <- generateContent ;;
  firstImage (responseParts response).

(** *** writeViralScript and ideateBRoll *)

Definition scriptPrompt (analysis : JSON) : Outcome unit :=
  productName <- getProp analysis "productName" ;;
  _ <- interpolate productName ;;
  targetAudience <- getProp analysis "targetAudience" ;;
  _ <- interpolate targetAudience ;;
  primaryColors <- getProp analysis "primaryColors" ;;
  _ <- join primaryColors ;;
  materials <- getProp analysis "materials" ;;
  first <- index0 materials ;;
  (* [first || 'quality materials']: a falsy [first] is replaced by a string *)
  interpolate first.

Definition writeViralScript (analysis : JSON)
    (generateContent : Outcome GenerateContentResponse) : Outcome string :=
  _ <- scriptPrompt analysis ;;
  response <- generateContent ;;
  Returned (orString (text response) "Failed to generate script.").

Definition bRollPrompt (analysis : JSON) : Outcome unit :=
  productName <- getProp analysis "productName" ;;
  interpolate productName.

Definition ideateBRoll (analysis : JSON)
    (generateContent : Outcome GenerateContentResponse) : Outcome JSON :=
  _ <- bRollPrompt analysis ;;
  response <- generateContent ;;
  JSON_parse (orString (text response) "[]").

(** *** generateProductVideo *)

(** What the function does to the outside, in order. *)
Inductive Event : Type :=
| StatusUpdate (status : string)          (* [onStatusUpdate(status)] *)
| GenerateVideos                          (* [ai.models.generateVideos] *)
| Sleep (ms : Z)                          (* the promise around [setTimeout] *)
| GetVideosOperation                      (* [ai.operations.getVideosOperation] *)
| Fetch (url : string).

Record FetchResponse : Type := { blob : Outcome string }.

(** The provider, the network and the browser as the function meets them.
    [getVideosOperation n op] is the answer to the status query number [n]
    (from 0) made with [op]. *)
Record World : Type := {
  generateVideos : Outcome Operation;
  getVideosOperation : nat -> Operation -> Outcome Operation;
  fetch : string -> Outcome FetchResponse;
  createObjectURL : string -> string;
  API_KEY : option string
}.

Definition videoPrompt (analysis : JSON) : Outcome unit :=
  productName <- getProp analysis "productName" ;;
  _ <- interpolate productName ;;
  materials <- getProp analysis "materials" ;;
  _ <- join materials ;;
  primaryColors <- getProp analysis "primaryColors" ;;
  join primaryColors.

Definition loadingMessages : list string :=
  [ "Analyzing product geometry...";
    "Simulating cinematic lighting...";
    "Extrapolating lifestyle environment...";
    "Rendering high-fidelity frames...";
    "Applying professional color grade...";
    "Finalizing export bitrate..." ].

(** One turn of the [while] loop, up to the status query. *)
Definition cycle (msgIdx : nat) : list Event :=
  [ StatusUpdate (nth (msgIdx mod List.length loadingMessages) loadingMessages "");
    Sleep 8000;
    GetVideosOperation ].

(** The [while (!operation.done)] loop.  [msgIdx] is the source's counter;
    it also counts the status queries made so far.  [None]: the fuel is used
    up and the loop is still running. *)
Fixpoint pollLoop (fuel : nat) (w : World) (operation : Operation)
    (msgIdx : nat) : option (Outcome Operation * list Event) :=
  if done operation then Some (Returned operation, [])
  else
    match fuel with
    | O => None
    | S fuel' =>
        match getVideosOperation w msgIdx operation with
        | Threw e => Some (Threw e, cycle msgIdx)
        | Returned operation' =>
            match pollLoop fuel' w operation' (S msgIdx) with
            | Some (r, evs) => Some (r, cycle msgIdx ++ evs)
            | None => None
            end
        end
    end.

(** [operation.response?.generatedVideos?.[0]?.video?.uri] *)
Definition downloadLink (operation : Operation) : option string :=
  match response operation with
  | Some r =>
      match generatedVideos r with
      | Some (g :: _) =>
          match video g with
          | Some v => uri v
          | None => None
          end
      | _ => None
      end
  | None => None
  end.

Definition downloadUrl (w : World) (link : string) : string :=
  String.append link (String.append "&key=" (showString (API_KEY w))).

(** The statements after the loop. *)
Definition download (w : World) (operation : Operation)
  : Outcome string * list Event :=
  if truthyString (downloadLink operation) then
    let url := downloadUrl w (showString (downloadLink operation)) in
    (r <- fetch w url ;;
     videoBlob <- blob r ;;
     Returned (createObjectURL w videoBlob),
     [Fetch url])
  else (Threw (Error "Video generation failed - no URI"), []).

(** The first status and the submission of the job. *)
Definition submission : list Event :=
  [StatusUpdate "Initializing Video Engine..."; GenerateVideos].

Definition generateProductVideo (fuel : nat) (w : World)
    (base64Image : string) (analysis : JSON)
  : option (Outcome string * list Event) :=
  match videoPrompt analysis with
  | Threw e => Some (Threw e, [])
  | Returned _ =>
      match generateVideos w with
      | Threw e => Some (Threw e, submission)
      | Returned operation =>
          match pollLoop fuel w operation 0 with
          | None => None
          | Some (Threw e, evs) => Some (Threw e, submission ++ evs)
          | Some (Returned operation', evs) =>
              let (r, evs') := download w operation' in
              Some (r, submission ++ evs ++ evs')
          end
      end
  end.

(** ** The application shell (App.tsx) *)

(** [s.includes(sub)] *)
Fixpoint includes (s sub : string) : bool :=
  String.prefix sub s ||
  match s with
  | EmptyString => false
  | String _ s' => includes s' sub
  end.

(** [window.aistudio], when the host page defines it. *)
Record AIStudio : Type := {
  hasSelectedApiKey : Outcome bool;
  openSelectKey : Outcome unit
}.

Module App.

Import CreativeAssets.

(** The eight [useState] cells.  [analysis] holds what
    [analyzeProductImage] resolved with; its [null] is [JNull]. *)
Record State : Type := {
  originalImage : option string;
  analysis : JSON;
  toastMessage : option string;
  videoStatus : string;
  credits : Z;
  showUpgradeModal : bool;
  assets : CreativeAssets.t;
  loading : LoadingState
}.

Definition noAssets : CreativeAssets.t :=
  {| CreativeAssets.originalImage := None;
     lifestyleImage := None;
     tiktokScript := None;
     bRollConcepts := JNull;
     productVideoUrl := None |}.

Definition notLoading : LoadingState :=
  {| analyzing := false;
     generatingImage := false;
     writingScript := false;
     ideatingBRoll := false;
     generatingVideo := false |}.

(** The initial values of the cells. *)
Definition init : State :=
  {| originalImage := None;
     analysis := JNull;
     toastMessage := None;
     videoStatus := "Initializing...";
     credits := 3;
     showUpgradeModal := false;
     assets := noAssets;
     loading := notLoading |}.

(** *** The setters *)

Definition setOriginalImage (v : option string) (s : State) : State :=
  {| originalImage := v; analysis := analysis s;
     toastMessage := toastMessage s; videoStatus := videoStatus s;
     credits := credits s; showUpgradeModal := showUpgradeModal s;
     assets := assets s; loading := loading s |}.

Definition setAnalysis (v : JSON) (s : State) : State :=
  {| originalImage := originalImage s; analysis := v;
     toastMessage := toastMessage s; videoStatus := videoStatus s;
     credits := credits s; showUpgradeModal := showUpgradeModal s;
     assets := assets s; loading := loading s |}.

Definition setToastMessage (v : option string) (s : State) : State :=
  {| originalImage := originalImage s; analysis := analysis s;
     toastMessage := v; videoStatus := videoStatus s;
     credits := credits s; showUpgradeModal := showUpgradeModal s;
     assets := assets s; loading := loading s |}.

Definition setVideoStatus (v : string) (s : State) : State :=
  {| originalImage := originalImage s; analysis := analysis s;
     toastMessage := toastMessage s; videoStatus := v;
     credits := credits s; showUpgradeModal := showUpgradeModal s;
     assets := assets s; loading := loading s |}.

(** [setCredits(f)] with an updater, or with the constant function. *)
Definition setCredits (f : Z -> Z) (s : State) : State :=
  {| originalImage := originalImage s; analysis := analysis s;
     toastMessage := toastMessage s; videoStatus := videoStatus s;
     credits := f (credits s); showUpgradeModal := showUpgradeModal s;
     assets := assets s; loading := loading s |}.

Definition setShowUpgradeModal (v : bool) (s : State) : State :=
  {| originalImage := originalImage s; analysis := analysis s;
     toastMessage := toastMessage s; videoStatus := videoStatus s;
     credits := credits s; showUpgradeModal := v;
     assets := assets s; loading := loading s |}.

Definition setAssets (f : CreativeAssets.t -> CreativeAssets.t) (s : State)
  : State :=
  {| originalImage := originalImage s; analysis := analysis s;
     toastMessage := toastMessage s; videoStatus := videoStatus s;
     credits := credits s; showUpgradeModal := showUpgradeModal s;
     assets := f (assets s); loading := loading s |}.

Definition setLoading (f : LoadingState -> LoadingState) (s : State)
  : State :=
  {| originalImage := originalImage s; analysis := analysis s;
     toastMessage := toastMessage s; videoStatus := videoStatus s;
     credits := credits s; showUpgradeModal := showUpgradeModal s;
     assets := assets s; loading := f (loading s) |}.

Definition showToast (msg : string) : State -> State :=
  setToastMessage (Some msg).

(** The updaters [prev => ({ ...prev, field: v })]. *)
Definition withAnalyzing (v : bool) (prev : LoadingState) : LoadingState :=
  {| analyzing := v; generatingImage := generatingImage prev;
     writingScript := writingScript prev;
     ideatingBRoll := ideatingBRoll prev;
     generatingVideo := generatingVideo prev |}.

Definition withGeneratingImage (v : bool) (prev : LoadingState)
  : LoadingState :=
  {| analyzing := analyzing prev; generatingImage := v;
     writingScript := writingScript prev;
     ideatingBRoll := ideatingBRoll prev;
     generatingVideo := generatingVideo prev |}.

Definition withWritingScript (v : bool) (prev : LoadingState)
  : LoadingState :=
  {| analyzing := analyzing prev; generatingImage := generatingImage prev;
     writingScript := v;
     ideatingBRoll := ideatingBRoll prev;
     generatingVideo := generatingVideo prev |}.

Definition withIdeatingBRoll (v : bool) (prev : LoadingState)
  : LoadingState :=
  {| analyzing := analyzing prev; generatingImage := generatingImage prev;
     writingScript := writingScript prev;
     ideatingBRoll := v;
     generatingVideo := generatingVideo prev |}.

Definition withGeneratingVideo (v : bool) (prev : LoadingState)
  : LoadingState :=
  {| analyzing := analyzing prev; generatingImage := generatingImage prev;
     writingScript := writingScript prev;
     ideatingBRoll := ideatingBRoll prev;
     generatingVideo := v |}.

Definition withLifestyleImage (v : string) (prev : CreativeAssets.t)
  : CreativeAssets.t :=
  {| CreativeAssets.originalImage := CreativeAssets.originalImage prev;
     lifestyleImage := Some v;
     tiktokScript := tiktokScript prev;
     bRollConcepts := bRollConcepts prev;
     productVideoUrl := productVideoUrl prev |}.

Definition withTiktokScript (v : string) (prev : CreativeAssets.t)
  : CreativeAssets.t :=
  {| CreativeAssets.originalImage := CreativeAssets.originalImage prev;
     lifestyleImage := lifestyleImage prev;
     tiktokScript := Some v;
     bRollConcepts := bRollConcepts prev;
     productVideoUrl := productVideoUrl prev |}.

Definition withBRollConcepts (v : JSON) (prev : CreativeAssets.t)
  : CreativeAssets.t :=
  {| CreativeAssets.originalImage := CreativeAssets.originalImage prev;
     lifestyleImage := lifestyleImage prev;
     tiktokScript := tiktokScript prev;
     bRollConcepts := v;
     productVideoUrl := productVideoUrl prev |}.

Definition withProductVideoUrl (v : string) (prev : CreativeAssets.t)
  : CreativeAssets.t :=
  {| CreativeAssets.originalImage := CreativeAssets.originalImage prev;
     lifestyleImage := lifestyleImage prev;
     tiktokScript := tiktokScript prev;
     bRollConcepts := bRollConcepts prev;
     productVideoUrl := Some v |}.

(** *** The handlers

    Each asynchronous handler is cut where it awaits a service: a first
    part that runs when the user acts, and a second that runs when the
    promise settles, on the state of that moment (the setters are given
    updaters).  The handler as a whole is their composition. *)

(** [handleAnalysis] *)
Definition analysisStarted : State -> State :=
  setLoading (withAnalyzing true).

Definition analysisSettled (r : Outcome JSON) (s : State) : State :=
  setLoading (withAnalyzing false)
    match r with
    | Returned result =>
        showToast "Analysis complete! 1 credit used."
          (setCredits (fun prev => Z.max 0 (prev - 1))
             (setAnalysis result s))
    | Threw _ => showToast "Analysis failed. Try another image." s
    end.

Definition handleAnalysis (image : string)
    (generateContent : Outcome GenerateContentResponse) (s : State) : State :=
  analysisSettled (analyzeProductImage image generateContent)
    (analysisStarted s).

(** [reader.onloadend]: the picked file or the sample, read as a data URL. *)
Definition imageRead (base64 : string) (s : State) : State :=
  analysisStarted (setOriginalImage (Some base64) s).

(** [handleFileUpload]; [file] is the data URL of [e.target.files?.[0]]. *)
Definition uploadRequested (s : State) : State :=
  if (credits s <=? 0)%Z then setShowUpgradeModal true s else s.

Definition handleFileUpload (file : option string)
    (generateContent : Outcome GenerateContentResponse) (s : State) : State :=
  if (credits s <=? 0)%Z then setShowUpgradeModal true s
  else
    match file with
    | Some base64 =>
        handleAnalysis base64 generateContent
          (setOriginalImage (Some base64) s)
    | None => s
    end.

(** [handleSampleLoad]; [sample] is the fetched sample as a data URL. *)
Definition sampleRequested (s : State) : State :=
  if (credits s <=? 0)%Z then setShowUpgradeModal true s
  else setLoading (withAnalyzing true) s.

Definition sampleFailed : State -> State :=
  showToast "Failed to load sample image.".

Definition handleSampleLoad (sample : Outcome string)
    (generateContent : Outcome GenerateContentResponse) (s : State) : State :=
  if (credits s <=? 0)%Z then setShowUpgradeModal true s
  else
    match sample with
    | Returned base64 =>
        handleAnalysis base64 generateContent
          (setOriginalImage (Some base64) (setLoading (withAnalyzing true) s))
    | Threw _ => sampleFailed (setLoading (withAnalyzing true) s)
    end.

(** [!originalImage || !analysis] *)
Definition noInput (s : State) : bool :=
  negb (truthyString (originalImage s)) || negb (truthy (analysis s)).

Definition theImage (s : State) : string :=
  match originalImage s with Some image => image | None => "" end.

(** [onGenerateImage] *)
Definition imageRequested (s : State) : State :=
  if noInput s then s else setLoading (withGeneratingImage true) s.

Definition imageSettled (r : Outcome string) (s : State) : State :=
  setLoading (withGeneratingImage false)
    match r with
    | Returned result =>
        showToast "Lifestyle photo generated!"
          (setAssets (withLifestyleImage result) s)
    | Threw _ => showToast "Failed to generate image." s
    end.

Definition onGenerateImage
    (generateContent : Outcome GenerateContentResponse) (s : State) : State :=
  if noInput s then s
  else
    imageSettled
      (generateLifestyleImage (theImage s) (analysis s) generateContent)
      (setLoading (withGeneratingImage true) s).

(** [onWriteScript] *)
Definition scriptRequested (s : State) : State :=
  if negb (truthy (analysis s)) then s
  else setLoading (withWritingScript true) s.

Definition scriptSettled (r : Outcome string) (s : State) : State :=
  setLoading (withWritingScript false)
    match r with
    | Returned result =>
        showToast "Viral script ready!"
          (setAssets (withTiktokScript result) s)
    | Threw _ => showToast "Failed to write script." s
    end.

Definition onWriteScript
    (generateContent : Outcome GenerateContentResponse) (s : State) : State :=
  if negb (truthy (analysis s)) then s
  else
    scriptSettled (writeViralScript (analysis s) generateContent)
      (setLoading (withWritingScript true) s).

(** [onIdeateBRoll] *)
Definition bRollRequested (s : State) : State :=
  if negb (truthy (analysis s)) then s
  else setLoading (withIdeatingBRoll true) s.

Definition bRollSettled (r : Outcome JSON) (s : State) : State :=
  setLoading (withIdeatingBRoll false)
    match r with
    | Returned result =>
        showToast "B-roll concepts created!"
          (setAssets (withBRollConcepts result) s)
    | Threw _ => showToast "Failed to ideate B-roll." s
    end.

Definition onIdeateBRoll
    (generateContent : Outcome GenerateContentResponse) (s : State) : State :=
  if negb (truthy (analysis s)) then s
  else
    bRollSettled (ideateBRoll (analysis s) generateContent)
      (setLoading (withIdeatingBRoll true) s).

(** [onGenerateVideo] *)

(** [window.aistudio && (await window.aistudio.hasSelectedApiKey())] *)
Definition hasKey (aistudio : option AIStudio) : Outcome bool :=
  match aistudio with
  | Some a => hasSelectedApiKey a
  | None => Returned false
  end.

Definition videoDenied : State -> State := setShowUpgradeModal true.

Definition videoRequested (s : State) : State :=
  if noInput s then s else setLoading (withGeneratingVideo true) s.

(** [error?.message?.includes("Requested entity was not found")] *)
Definition entityNotFound (error : JsError) : bool :=
  match errorMessage error with
  | Some m => includes m "Requested entity was not found"
  | None => false
  end.

Definition videoSettled (r : Outcome string) (s : State) : State :=
  setLoading (withGeneratingVideo false)
    match r with
    | Returned result =>
        showToast "Campaign video generated!"
          (setAssets (withProductVideoUrl result) s)
    | Threw error =>
        if entityNotFound error then
          setShowUpgradeModal true
            (showToast "Session expired. Please re-link your key." s)
        else showToast "Video generation failed." s
    end.

(** The calls of [setVideoStatus] that the service made through its
    [onStatusUpdate] argument. *)
Fixpoint statusUpdates (evs : list Event) (s : State) : State :=
  match evs with
  | [] => s
  | StatusUpdate status :: rest => statusUpdates rest (setVideoStatus status s)
  | _ :: rest => statusUpdates rest s
  end.

(** The result is the final state and what the service did to the outside;
    [None] when the polling loop is still running after [fuel] turns.  When
    the key check itself rejects, so does the handler, with nothing set. *)
Definition onGenerateVideo (fuel : nat) (aistudio : option AIStudio)
    (w : World) (s : State) : option (State * list Event) :=
  match hasKey aistudio with
  | Threw _ => Some (s, [])
  | Returned false => Some (videoDenied s, [])
  | Returned true =>
      if noInput s then Some (s, [])
      else
        match generateProductVideo fuel w (theImage s) (analysis s) with
        | Some (r, evs) =>
            Some (videoSettled r
                    (statusUpdates evs
                       (setLoading (withGeneratingVideo true) s)),
                  evs)
        | None => None
        end
  end.

(** [handleUpgrade] *)
Definition handleUpgrade (aistudio : option AIStudio) (s : State) : State :=
  match aistudio with
  | Some a =>
      match openSelectKey a with
      | Returned _ =>
          setCredits (fun _ => 99%Z)
            (showToast "Pro features unlocked!"
               (setShowUpgradeModal false s))
      | Threw _ => s
      end
  | None => s
  end.

(** The [onClick] of the New Campaign button. *)
Definition newCampaign (s : State) : State :=
  setAssets (fun _ => noAssets) (setAnalysis JNull (setOriginalImage None s)).

(** [copyToClipboard], where the page has a clipboard. *)
Definition copyToClipboard (text : string) : State -> State :=
  showToast "Copied to clipboard!".

(** *** The shell as a transition system

    One action per block of code that runs without awaiting.  Any sequence
    of actions is allowed, which covers every interleaving of the handlers
    (and more). *)
Inductive Action : Type :=
| UploadRequested
| SampleRequested
| SampleFailed
| ImageRead (base64 : string)
| AnalysisSettled (r : Outcome JSON)
| ImageRequested
| ImageSettled (r : Outcome string)
| ScriptRequested
| ScriptSettled (r : Outcome string)
| BRollRequested
| BRollSettled (r : Outcome JSON)
| VideoDenied
| VideoRequested
| VideoStatus (status : string)
| VideoSettled (r : Outcome string)
| Upgrade (aistudio : option AIStudio)
| NewCampaign
| CopyToClipboard (text : string)
| ToastClosed
| UpgradeModalOpened
| UpgradeModalClosed.

Definition step (a : Action) (s : State) : State :=
  match a with
  | UploadRequested => uploadRequested s
  | SampleRequested => sampleRequested s
  | SampleFailed => sampleFailed s
  | ImageRead base64 => imageRead base64 s
  | AnalysisSettled r => analysisSettled r s
  | ImageRequested => imageRequested s
  | ImageSettled r => imageSettled r s
  | ScriptRequested => scriptRequested s
  | ScriptSettled r => scriptSettled r s
  | BRollRequested => bRollRequested s
  | BRollSettled r => bRollSettled r s
  | VideoDenied => videoDenied s
  | VideoRequested => videoRequested s
  | VideoStatus status => setVideoStatus status s
  | VideoSettled r => videoSettled r s
  | Upgrade aistudio => handleUpgrade aistudio s
  | NewCampaign => newCampaign s
  | CopyToClipboard text => copyToClipboard text s
  | ToastClosed => setToastMessage None s
  | UpgradeModalOpened => setShowUpgradeModal true s
  | UpgradeModalClosed => setShowUpgradeModal false s
  end.

Definition run (actions : list Action) (s : State) : State :=
  fold_left (fun s' a => step a s') actions s.

End App.

(** ** The four asset actions, uniformly *)

Inductive AssetAction : Type :=
| GenerateImage | WriteScript | IdeateBRoll | GenerateVideo.

(** The fields of [CreativeAssets]; no action owns [OriginalImage]. *)
Inductive Slot : Type :=
| OriginalImage | LifestyleImage | TiktokScript | BRollConcepts
| ProductVideoUrl.

Definition ownSlot (a : AssetAction) : Slot :=
  match a with
  | GenerateImage => LifestyleImage
  | WriteScript => TiktokScript
  | IdeateBRoll => BRollConcepts
  | GenerateVideo => ProductVideoUrl
  end.

Inductive SlotValue : Type :=
| Reference (v : option string)
| Concepts (v : JSON).

Definition slot (sl : Slot) (a : CreativeAssets.t) : SlotValue :=
  match sl with
  | OriginalImage => Reference (CreativeAssets.originalImage a)
  | LifestyleImage => Reference (CreativeAssets.lifestyleImage a)
  | TiktokScript => Reference (CreativeAssets.tiktokScript a)
  | BRollConcepts => Concepts (CreativeAssets.bRollConcepts a)
  | ProductVideoUrl => Reference (CreativeAssets.productVideoUrl a)
  end.

(** What the service of an action resolves with. *)
Definition Result (a : AssetAction) : Type :=
  match a with
  | IdeateBRoll => JSON
  | _ => string
  end.

(** The value a result leaves in the slot of its action. *)
Definition stored (a : AssetAction) : Result a -> SlotValue :=
  match a with
  | IdeateBRoll => Concepts
  | _ => fun v => Reference (Some v)
  end.

(** Everything outside the shell that an action meets. *)
Record Host : Type := {
  aistudio : option AIStudio;
  world : World;
  generateContent : Outcome GenerateContentResponse;
  turns : nat
}.

(** The service call of an action in state [s], as its handler makes it;
    [None] for a video whose polling is still running after [turns h] turns. *)
Definition serviceCall (a : AssetAction) (h : Host) (s : App.State)
  : option (Outcome (Result a)) :=
  match a with
  | GenerateImage =>
      Some (generateLifestyleImage (App.theImage s) (App.analysis s)
              (generateContent h))
  | WriteScript => Some (writeViralScript (App.analysis s) (generateContent h))
  | IdeateBRoll => Some (ideateBRoll (App.analysis s) (generateContent h))
  | GenerateVideo =>
      option_map fst
        (generateProductVideo (turns h) (world h) (App.theImage s)
           (App.analysis s))
  end.

(** Whether the handler of an action, started in state [s], gets past its
    guards to its service call. *)
Definition callsService (a : AssetAction) (h : Host) (s : App.State) : bool :=
  match a with
  | GenerateImage => negb (App.noInput s)
  | WriteScript => truthy (App.analysis s)
  | IdeateBRoll => truthy (App.analysis s)
  | GenerateVideo =>
      match App.hasKey (aistudio h) with
      | Returned true => negb (App.noInput s)
      | _ => false
      end
  end.

(** The handler of an action, run from state [s] to its end. *)
Definition perform (a : AssetAction) (h : Host) (s : App.State)
  : option App.State :=
  match a with
  | GenerateImage => Some (App.onGenerateImage (generateContent h) s)
  | WriteScript => Some (App.onWriteScript (generateContent h) s)
  | IdeateBRoll => Some (App.onIdeateBRoll (generateContent h) s)
  | GenerateVideo =>
      option_map fst (App.onGenerateVideo (turns h) (aistudio h) (world h) s)
  end.

(** The two halves of the handler of an action. *)
Definition requested (a : AssetAction) : App.State -> App.State :=
  match a with
  | GenerateImage => App.imageRequested
  | WriteScript => App.scriptRequested
  | IdeateBRoll => App.bRollRequested
  | GenerateVideo => App.videoRequested
  end.

Definition settled (a : AssetAction)
  : Outcome (Result a) -> App.State -> App.State :=
  match a with
  | GenerateImage => App.imageSettled
  | WriteScript => App.scriptSettled
  | IdeateBRoll => App.bRollSettled
  | GenerateVideo => App.videoSettled
  end.

(** The actions by which a handler run goes through the transition system;
    the polling of a video run is given its answer [r] and status calls. *)
Definition statusActions (evs : list Event) : list App.Action :=
  flat_map (fun ev => match ev with
                      | StatusUpdate status => [App.VideoStatus status]
                      | _ => []
                      end) evs.

(** ** Notions the properties are stated with *)

(** A parse that succeeds has read at least one character. *)
Definition consumes (r : ParseResult) (cs : list ascii) : Prop :=
  match r with
  | Parsed _ rest => List.length rest < List.length cs
  | _ => True
  end.

(** The operation in hand after [i] more status queries, the next query being
    number [k]. *)
Fixpoint held (w : World) (k : nat) (operation : Operation) (i : nat)
  : Outcome Operation :=
  match i with
  | O => Returned operation
  | S j =>
      operation' <- getVideosOperation w k operation ;;
      held w (S k) operation' j
  end.

Definition isDone (o : Outcome Operation) : bool :=
  match o with
  | Returned operation => done operation
  | Threw _ => false
  end.

(** The provider reports [final], done, as the answer to the status query
    number [n] counted from [k] (for [n = 0]: the operation in hand is done
    already), and no operation before it was done. *)
Definition doneAfter (w : World) (k : nat) (operation : Operation) (n : nat)
    (final : Operation) : Prop :=
  held w k operation n = Returned final /\
  done final = true /\
  forall i, i < n -> isDone (held w k operation i) = false.

(** The status query number [n] counted from [k] throws [e]; no operation
    before it was done. *)
Definition throwsAfter (w : World) (k : nat) (operation : Operation) (n : nat)
    (e : JsError) : Prop :=
  (exists last, held w k operation n = Returned last /\
                getVideosOperation w (k + n) last = Threw e) /\
  forall i, i <= n -> isDone (held w k operation i) = false.

(** The provider answers every status query, never with a done operation. *)
Definition neverDone (w : World) : Prop :=
  forall k operation, exists operation',
    getVideosOperation w k operation = Returned operation' /\
    done operation' = false.

(** The events of [n] turns of the loop, from the counter value [k]. *)
Definition cycles (k n : nat) : list Event := flat_map cycle (seq k n).

(** ** Sample values *)

Definition mug : JSON :=
  JObj [ ("productName", JStr "Ceramic Mug");
         ("productType", JStr "Drinkware");
         ("materials", JArr [JStr "ceramic"; JStr "glaze"]);
         ("primaryColors", JArr [JStr "white"]);
         ("targetAudience", JStr "Coffee lovers") ].

Definition photo : string := "data:image/png;base64,iVBORw0KGgo=".

Definition pending : Operation := {| done := false; response := None |}.

Definition finished (link : option string) : Operation :=
  {| done := true;
     response :=
       Some {| generatedVideos := Some [ {| video := Some {| uri := link |} |} ] |} |}.

(** A provider that answers two status queries with the pending job and the
    third with the finished one. *)
Definition slowWorld : World :=
  {| generateVideos := Returned pending;
     getVideosOperation := fun n _ =>
       if n <? 2 then Returned pending
       else Returned (finished (Some "https://provider.example/v/1?alt=media"));
     fetch := fun _ => Returned {| blob := Returned "mp4-bytes" |};
     createObjectURL := fun b => String.append "blob:" b;
     API_KEY := Some "K" |}.

(** A provider whose job never finishes. *)
Definition stuckWorld : World :=
  {| generateVideos := Returned pending;
     getVideosOperation := fun _ _ => Returned pending;
     fetch := fun _ => Threw (ProviderError None);
     createObjectURL := fun b => b;
     API_KEY := None |}.

(** A JSON string literal: [s] between quotes. *)
Definition quoted (s : string) : string :=
  String quote (String.append s (String quote "")).

(** The text from which [JSON.parse] builds [mug]. *)
Definition mugText : string :=
  String.concat ""
    [ "{ "; quoted "productName"; ": "; quoted "Ceramic Mug"; ", ";
      quoted "productType"; ": "; quoted "Drinkware"; ", ";
      quoted "materials"; ": ["; quoted "ceramic"; ", "; quoted "glaze"; "], ";
      quoted "primaryColors"; ": ["; quoted "white"; "], ";
      quoted "targetAudience"; ": "; quoted "Coffee lovers"; " }" ].

Definition textResponse (t : option string) : GenerateContentResponse :=
  {| candidates := None; text := t |}.

Definition partsResponse (ps : list Part) : GenerateContentResponse :=
  {| candidates := Some [ {| content := Some {| parts := Some ps |} |} ];
     text := None |}.

Definition textPart : Part := {| inlineData := None |}.

Definition imagePart (d : string) : Part :=
  {| inlineData := Some {| data := Some d |} |}.

Definition studio (key : bool) : AIStudio :=
  {| hasSelectedApiKey := Returned key; openSelectKey := Returned tt |}.

(** The state once the photo is uploaded and analysed. *)
Definition analysed : App.State :=
  App.handleFileUpload (Some photo) (Returned (textResponse (Some mugText)))
    App.init.

(** A provider whose job is finished at once, with no video in it. *)
Definition emptyWorld : World :=
  {| generateVideos := Returned (finished None);
     getVideosOperation := fun _ operation => Returned operation;
     fetch := fun _ => Returned {| blob := Returned "" |};
     createObjectURL := fun b => String.append "blob:" b;
     API_KEY := Some "K" |}.

(** A provider that rejects the second status query. *)
Definition brokenWorld : World :=
  {| generateVideos := Returned pending;
     getVideosOperation := fun n _ =>
       if n <? 1 then Returned pending
       else Threw (ProviderError (Some "503 Service Unavailable"));
     fetch := fun _ => Returned {| blob := Returned "" |};
     createObjectURL := fun b => String.append "blob:" b;
     API_KEY := Some "K" |}.

(** The state once a lifestyle photo and a script have been generated. *)
Definition populated : App.State :=
  App.onWriteScript (Returned (textResponse (Some "POV: your coffee stays hot")))
    (App.onGenerateImage
       (Returned (partsResponse [textPart; imagePart "QUJD"; imagePart "REVG"]))
       analysed).

Definition brokenHost : Host :=
  {| aistudio := Some (studio true);
     world := brokenWorld;
     generateContent := Threw (ProviderError None);
     turns := 5 |}.

Definition afterBrokenVideo : App.State :=
  match perform GenerateVideo brokenHost populated with
  | Some s' => s'
  | None => populated
  end.

(** ** The Button component (components/Button.tsx) and its uses *)

Module Button.

Inductive Variant : Type := primary | secondary | outline.

(** The props the component reads, [onClick] and [children] aside. *)
Record Props : Type := {
  loading : option bool;
  disabled : option bool;
  variant : option Variant;
  className : option string
}.

(** The [button] element it returns: its [disabled] attribute, whether the
    spinner is among its children, its [className]. *)
Record Element : Type := {
  isDisabled : bool;
  spinner : bool;
  classes : string
}.

Definition baseStyles : string :=
  "px-4 py-3 rounded-xl font-semibold transition-all duration-200 flex items-center justify-center gap-2 disabled:opacity-50 disabled:cursor-not-allowed".

Definition variants (v : Variant) : string :=
  match v with
  | primary => "bg-gradient-to-r from-indigo-600 to-purple-600 hover:from-indigo-500 hover:to-purple-500 text-white shadow-lg shadow-indigo-500/20"
  | secondary => "bg-slate-800 hover:bg-slate-700 text-slate-100"
  | outline => "border border-slate-700 hover:border-slate-500 text-slate-300"
  end.

Definition isTrue (b : option bool) : bool :=
  match b with Some true => true | _ => false end.

Definition render (props : Props) : Element :=
  let v := match variant props with Some v' => v' | None => primary end in
  let c := match className props with Some c' => c' | None => "" end in
  {| isDisabled := isTrue (disabled props) || isTrue (loading props);
     spinner := isTrue (loading props);
     classes :=
       String.concat " " [baseStyles; variants v; c] |}.

End Button.

(** The loading flags by name. *)
Inductive Flag : Type :=
| Analyzing | GeneratingImage | WritingScript | IdeatingBRoll | GeneratingVideo.

Definition flag (f : Flag) (l : LoadingState) : bool :=
  match f with
  | Analyzing => analyzing l
  | GeneratingImage => generatingImage l
  | WritingScript => writingScript l
  | IdeatingBRoll => ideatingBRoll l
  | GeneratingVideo => generatingVideo l
  end.

Definition ownFlag (a : AssetAction) : Flag :=
  match a with
  | GenerateImage => GeneratingImage
  | WriteScript => WritingScript
  | IdeateBRoll => IdeatingBRoll
  | GenerateVideo => GeneratingVideo
  end.

(** The props [App] gives the button of an asset action; the four buttons
    are rendered only under [originalImage &&]. *)
Definition assetButton (a : AssetAction) (s : App.State)
  : option Button.Props :=
  if truthyString (App.originalImage s) then
    Some
      match a with
      | GenerateVideo =>
          {| Button.loading := Some (generatingVideo (App.loading s));
             Button.disabled := Some (negb (truthy (App.analysis s)));
             Button.variant := Some Button.primary;
             Button.className :=
               Some "w-full text-sm py-4 bg-gradient-to-r from-pink-600 to-purple-600" |}
      | GenerateImage =>
          {| Button.loading := Some (generatingImage (App.loading s));
             Button.disabled := Some (negb (truthy (App.analysis s)));
             Button.variant := None;
             Button.className :=
               Some "w-full text-sm py-3 bg-slate-800 hover:bg-slate-700" |}
      | WriteScript =>
          {| Button.loading := Some (writingScript (App.loading s));
             Button.disabled := Some (negb (truthy (App.analysis s)));
             Button.variant := Some Button.secondary;
             Button.className := Some "text-xs py-3" |}
      | IdeateBRoll =>
          {| Button.loading := Some (ideatingBRoll (App.loading s));
             Button.disabled := Some (negb (truthy (App.analysis s)));
             Button.variant := Some Button.outline;
             Button.className := Some "text-xs py-3" |}
      end
  else None.

(** The button of an action is on the page and not disabled. *)
Definition clickable (a : AssetAction) (s : App.State) : bool :=
  match assetButton a s with
  | Some props => negb (Button.isDisabled (Button.render props))
  | None => false
  end.

(** ** Sequences of uploads *)

(** Uploads one after the other, each given as the data URL of its file and
    the provider's answer to its analysis. *)
Definition uploads (files : list (string * Outcome GenerateContentResponse))
    (s : App.State) : App.State :=
  fold_left (fun s' f => App.handleFileUpload (Some (fst f)) (snd f) s')
    files s.

Definition analysed_ok (f : string * Outcome GenerateContentResponse) : Prop :=
  exists v, analyzeProductImage (fst f) (snd f) = Returned v.

(** The status a trace leaves on the page: that of its last status call. *)
Fixpoint lastStatus (evs : list Event) (current : string) : string :=
  match evs with
  | [] => current
  | StatusUpdate status :: rest => lastStatus rest status
  | _ :: rest => lastStatus rest current
  end.

(** ** The image payload of a request *)

(** [s.split(',')]: the pieces of [s] between its commas, at least one. *)
Fixpoint splitComma (s : string) : list string :=
  match s with
  | EmptyString => [""]
  | String c rest =>
      if Ascii.eqb c "," then "" :: splitComma rest
      else
        match splitComma rest with
        | piece :: pieces => String c piece :: pieces
        | [] => [String c ""]
        end
  end.

(** [base64Image.split(',')[1] || base64Image], the image bytes that
    [analyzeProductImage], [generateLifestyleImage] and
    [generateProductVideo] put in their requests. *)
Definition imagePayload (base64Image : string) : string :=
  orString (nth_error (splitComma base64Image) 1) base64Image.

Fixpoint hasComma (s : string) : bool :=
  match s with
  | EmptyString => false
  | String c rest => Ascii.eqb c "," || hasComma rest
  end.

(** ** The Intel section of the page (App.tsx) *)

(** [x.map(item => <span key={item} ...>{item}</span>)]: only arrays have a
    [map] that can be called; each element is given its item as key, which
    the creation of the element turns into a string. *)
Definition mapKeyed (x : option JSON) : Outcome unit :=
  match x with
  | None => Threw (TypeError "Cannot read properties of undefined (reading 'map')")
  | Some JNull => Threw (TypeError "Cannot read properties of null (reading 'map')")
  | Some (JArr items) =>
      if forallb stringifies items then Returned tt else Threw cannotConvert
  | Some _ => Threw (TypeError "map is not a function")
  end.

(** The evaluation of the expressions of the Intel section when [App] is
    rendered in state [s]: the placeholder while [loading.analyzing], else
    the five fields of a truthy analysis, else the waiting line.  An
    exception here is an exception of the render of [App].  What React does
    with the elements once they are built is not part of it. *)
Definition intelSection (s : App.State) : Outcome unit :=
  if analyzing (App.loading s) then Returned tt
  else if truthy (App.analysis s) then
    _ <- getProp (App.analysis s) "productName" ;;
    _ <- getProp (App.analysis s) "productType" ;;
    primaryColors <- getProp (App.analysis s) "primaryColors" ;;
    _ <- mapKeyed primaryColors ;;
    materials <- getProp (App.analysis s) "materials" ;;
    _ <- mapKeyed materials ;;
    _ <- getProp (App.analysis s) "targetAudience" ;;
    Returned tt
  else Returned tt.

(** * Properties *)

(** *** The fuel of [JSON_parse] is enough *)

Ltac break_match :=
  match goal with
  | |- context [match ?x with _ => _ end] =>
      match type of x with
      | sumbool _ _ => fail 1
      | _ => destruct x eqn:?
      end
  | H : context [match ?x with _ => _ end] |- _ => destruct x eqn:?
  end.

Lemma skipWs_length (cs : list ascii) :
  List.length (skipWs cs) <= List.length cs.
Proof.
  induction cs as [|c cs IH]; simpl; [lia|].
  destruct (isWs c); simpl; lia.
Qed.

Lemma skipWs_cons_length (cs : list ascii) (c : ascii) (rest : list ascii) :
  skipWs cs = c :: rest -> List.length rest < List.length cs.
Proof.
  intros H. pose proof (skipWs_length cs) as L. rewrite H in L. simpl in L. lia.
Qed.

Lemma parseChars_length (cs acc : list ascii) (s : string) (rest : list ascii) :
  parseChars cs acc = Some (s, rest) -> List.length rest < List.length cs.
Proof.
  remember (List.length cs) as n eqn:En. revert cs acc En.
  induction n as [n IH] using lt_wf_ind. intros cs acc En H.
  destruct cs as [|c cs1]; simpl in H; [discriminate|]. simpl in En.
  repeat (break_match; try discriminate);
    try (inversion H; subst; simpl; lia);
    try (eapply IH in H; [| |reflexivity]; simpl in *; lia).
Qed.

Lemma spanDigits_length (cs ds rest : list ascii) :
  spanDigits cs = (ds, rest) ->
  List.length rest + List.length ds = List.length cs.
Proof.
  revert ds rest. induction cs as [|c cs IH]; simpl; intros ds rest H.
  - inversion H; reflexivity.
  - destruct (isDigit c).
    + destruct (spanDigits cs) as [ds' r'] eqn:E. inversion H; subst.
      specialize (IH _ _ eq_refl). simpl. lia.
    + inversion H; subst. simpl. lia.
Qed.

Lemma dropPrefix_length (p cs rest : list ascii) :
  dropPrefix p cs = Some rest -> List.length rest <= List.length cs.
Proof.
  revert cs. induction p as [|a p IH]; simpl; intros cs H.
  - inversion H; subst; lia.
  - destruct cs as [|c cs]; [discriminate|].
    destruct (Ascii.eqb a c); [|discriminate].
    apply IH in H. simpl. lia.
Qed.

Lemma parseNumber_length (cs : list ascii) (lit : string) (rest : list ascii) :
  parseNumber cs = Some (lit, rest) -> List.length rest < List.length cs.
Proof.
  unfold parseNumber. intros H.
  repeat (break_match; try discriminate);
    repeat match goal with
    | E : spanDigits _ = _ |- _ => apply spanDigits_length in E
    | E : (_, _) = (_, _) |- _ => inversion E; subst; clear E
    | E : Some _ = Some _ |- _ => inversion E; subst; clear E
    end; simpl in *; try lia.
Qed.

Ltac len_facts :=
  repeat match goal with
  | E : skipWs _ = _ :: _ |- _ => apply skipWs_cons_length in E
  | E : parseChars _ _ = Some _ |- _ => apply parseChars_length in E
  | E : parseNumber _ = Some _ |- _ => apply parseNumber_length in E
  | E : dropPrefix _ _ = Some _ |- _ => apply dropPrefix_length in E
  end.

Ltac unfold_parse := cbn [parseValue parseElements parseMembers].
Ltac lens := cbn [List.length consumes] in *.

Lemma parse_consumes (fuel : nat) :
  (forall cs, consumes (parseValue fuel cs) cs) /\
  (forall cs acc, consumes (parseElements fuel cs acc) cs) /\
  (forall cs acc, consumes (parseMembers fuel cs acc) cs).
Proof.
  induction fuel as [|fuel (IHv & IHe & IHm)]; [simpl; auto|].
  repeat split; intros cs; intros.
  - unfold_parse. repeat (break_match; try exact I);
      try match goal with
      | |- context [parseMembers fuel ?a ?b] =>
          specialize (IHm a b); destruct (parseMembers fuel a b)
      | |- context [parseElements fuel ?a ?b] =>
          specialize (IHe a b); destruct (parseElements fuel a b)
      end; len_facts; lens; try exact I; lia.
  - unfold_parse. pose proof (IHv cs) as Hv.
    destruct (parseValue fuel cs) as [v rest| |]; lens; try exact I.
    repeat (break_match; try exact I);
      try match goal with
      | |- context [parseElements fuel ?a ?b] =>
          specialize (IHe a b); destruct (parseElements fuel a b)
      end; len_facts; lens; try exact I; lia.
  - unfold_parse. repeat (break_match; try exact I);
      try match goal with
      | E : parseValue fuel ?a = Parsed _ _ |- _ =>
          let Hv := fresh in pose proof (IHv a) as Hv; rewrite E in Hv
      end;
      try match goal with
      | |- context [parseMembers fuel ?a ?b] =>
          specialize (IHm a b); destruct (parseMembers fuel a b)
      end; len_facts; lens; try exact I; lia.
Qed.

Lemma parse_fuel (fuel : nat) :
  (forall cs, 2 * List.length cs < fuel -> parseValue fuel cs <> OutOfFuel) /\
  (forall cs acc, 2 * List.length cs + 1 < fuel ->
     parseElements fuel cs acc <> OutOfFuel) /\
  (forall cs acc, 2 * List.length cs + 1 < fuel ->
     parseMembers fuel cs acc <> OutOfFuel).
Proof.
  induction fuel as [|fuel (IHv & IHe & IHm)]; [repeat split; intros; lia|].
  repeat split; intros cs; intros.
  - unfold_parse. repeat (break_match; try discriminate);
      len_facts; lens; first [apply IHm | apply IHe]; lia.
  - unfold_parse.
    pose proof (proj1 (parse_consumes fuel) cs) as Hc.
    destruct (parseValue fuel cs) as [v rest| |] eqn:Ev; lens;
      [|discriminate|exfalso; apply (IHv cs); [lia|exact Ev]].
    repeat (break_match; try discriminate); len_facts; lens; apply IHe; lia.
  - unfold_parse. repeat (break_match; try discriminate);
      try match goal with
      | E : parseValue fuel ?a = Parsed _ _ |- _ =>
          let Hc := fresh in
          pose proof (proj1 (parse_consumes fuel) a) as Hc; rewrite E in Hc
      end; len_facts; lens;
      first [ apply IHm; lia
            | exfalso;
              match goal with
              | E : parseValue fuel ?a = OutOfFuel |- _ =>
                  apply (IHv a); [lia|exact E]
              end ].
Qed.

(** [JSON_parse] never answers for lack of fuel. *)
Lemma JSON_parse_fuel (text : string) : parseText text <> OutOfFuel.
Proof.
  unfold parseText. apply (proj1 (parse_fuel _)). lia.
Qed.

(** ** The model on the examples of the specification *)

Example JSON_parse_samples :
  JSON_parse "{}" = Returned (JObj []) /\
  JSON_parse " [ 1.5e3, true, null, [ ] ] "
    = Returned (JArr [JNum "1.5e3"; JBool true; JNull; JArr []]) /\
  JSON_parse "[1,]" = Threw (SyntaxError "Unexpected token") /\
  JSON_parse "01"
    = Threw (SyntaxError "Unexpected non-whitespace character after JSON") /\
  JSON_parse "" = Threw (SyntaxError "Unexpected token").
Proof. repeat split; vm_compute; reflexivity. Qed.

Example JSON_parse_escapes :
  JSON_parse (quoted "Aé\n😀")
    = Returned
        (JStr (string_of_list_ascii
                 (map ascii_of_nat [65; 195; 169; 10; 240; 159; 152; 128]))) /\
  JSON_parse (quoted "\ud83d!")
    = Returned (JStr (string_of_list_ascii
                        (map ascii_of_nat [237; 160; 189; 33]))) /\
  JSON_parse (quoted "\ud83dé")
    = Returned (JStr (string_of_list_ascii
                        (map ascii_of_nat [237; 160; 189; 195; 169]))) /\
  JSON_parse (quoted "\ud83d\uZZZZ") = Threw (SyntaxError "Unexpected token").
Proof. repeat split; vm_compute; reflexivity. Qed.

Example JSON_parse_mugText : JSON_parse mugText = Returned mug.
Proof. vm_compute. reflexivity. Qed.

Example upload_then_script :
  App.analysis analysed = mug /\
  App.credits analysed = 2%Z /\
  CreativeAssets.tiktokScript
    (App.assets
       (App.onWriteScript
          (Returned (textResponse (Some "POV: your coffee stays hot")))
          analysed))
    = Some "POV: your coffee stays hot" /\
  CreativeAssets.lifestyleImage
    (App.assets
       (App.onWriteScript
          (Returned (textResponse (Some "POV: your coffee stays hot")))
          analysed))
    = None.
Proof. repeat split; vm_compute; reflexivity. Qed.

Example video_with_key :
  option_map snd
    (App.onGenerateVideo 0 (Some (studio true)) emptyWorld analysed)
    = Some [StatusUpdate "Initializing Video Engine..."; GenerateVideos] /\
  option_map (fun r => App.toastMessage (fst r))
    (App.onGenerateVideo 0 (Some (studio true)) emptyWorld analysed)
    = Some (Some "Video generation failed.").
Proof. split; vm_compute; reflexivity. Qed.

(** ** The polling loop *)

Section Polling.

Variable w : World.

Lemma held_step (k : nat) (operation operation' : Operation)
    (i : nat) :
  getVideosOperation w k operation = Returned operation' ->
  held w k operation (S i) = held w (S k) operation' i.
Proof. intros H. simpl. rewrite H. reflexivity. Qed.

Lemma pollLoop_done (n : nat) :
  forall k operation final,
    doneAfter w k operation n final ->
    forall fuel,
      pollLoop fuel w operation k =
        if n <=? fuel then Some (Returned final, cycles k n) else None.
Proof.
  induction n as [|n IH]; intros k operation final (Hheld & Hdone & Hbefore) fuel.
  - simpl in Hheld. injection Hheld as ->.
    destruct fuel; simpl; rewrite Hdone; reflexivity.
  - assert (Hnow : done operation = false) by (apply (Hbefore 0); lia).
    destruct (getVideosOperation w k operation) as [operation'|e] eqn:Hq;
      [|simpl in Hheld; rewrite Hq in Hheld; discriminate].
    rewrite (held_step _ _ _ _ Hq) in Hheld.
    assert (Hnext : doneAfter w (S k) operation' n final).
    { repeat split; trivial. intros i Hi.
      rewrite <- (held_step _ _ _ _ Hq). apply Hbefore. lia. }
    destruct fuel as [|fuel]; simpl; rewrite Hnow; [reflexivity|].
    rewrite Hq, (IH _ _ _ Hnext fuel).
    destruct (n <=? fuel); reflexivity.
Qed.

Lemma pollLoop_throws (n : nat) :
  forall k operation e,
    throwsAfter w k operation n e ->
    forall fuel, n < fuel ->
      pollLoop fuel w operation k = Some (Threw e, cycles k (S n)).
Proof.
  induction n as [|n IH];
    intros k operation e ((last & Hheld & Hthrow) & Hbefore) fuel Hfuel;
    (assert (Hnow : done operation = false) by (apply (Hbefore 0); lia));
    (destruct fuel as [|fuel]; [lia|]); simpl; rewrite Hnow.
  - simpl in Hheld. injection Hheld as <-.
    rewrite Nat.add_0_r in Hthrow. rewrite Hthrow. reflexivity.
  - destruct (getVideosOperation w k operation) as [operation'|e'] eqn:Hq;
      [|simpl in Hheld; rewrite Hq in Hheld; discriminate].
    rewrite (held_step _ _ _ _ Hq) in Hheld.
    rewrite (IH (S k) operation' e); [reflexivity| |lia].
    split.
    + exists last. split; [exact Hheld|].
      rewrite <- Hthrow. f_equal. lia.
    + intros i Hi. rewrite <- (held_step _ _ _ _ Hq). apply Hbefore. lia.
Qed.

Lemma pollLoop_neverDone :
  neverDone w ->
  forall fuel k operation,
    done operation = false -> pollLoop fuel w operation k = None.
Proof.
  intros Hnever. induction fuel as [|fuel IH]; intros k operation Hnow;
    simpl; rewrite Hnow; [reflexivity|].
  destruct (Hnever k operation) as (operation' & -> & Hnot).
  rewrite (IH _ _ Hnot). reflexivity.
Qed.

End Polling.

(** C1.  In every run of [generateProductVideo] in which the provider
    reports the operation done as the answer to the status query number [n]
    (and not before), the polling loop ends after exactly [n] turns, whatever
    [n] is: each turn shows the next of the six status messages, going round
    the list, suspends for 8000 ms and queries the status once; the function
    then goes on with the statements after the loop.  With fewer than [n]
    turns the loop is still running.  The loop has no bound of its own: with a
    provider that never reports the operation done it is still running after
    any number of turns. *)
Theorem polling_terminates (w : World) (base64Image : string)
    (analysis : JSON) (operation : Operation) :
  videoPrompt analysis = Returned tt ->
  generateVideos w = Returned operation ->
  (forall n final,
     doneAfter w 0 operation n final ->
     forall fuel,
       generateProductVideo fuel w base64Image analysis =
         if n <=? fuel then
           Some (fst (download w final),
                 submission ++
                 flat_map (fun i =>
                             [ StatusUpdate (nth (i mod 6) loadingMessages "");
                               Sleep 8000;
                               GetVideosOperation ])
                          (seq 0 n) ++
                 snd (download w final))
         else None) /\
  (neverDone w -> done operation = false ->
   forall fuel, generateProductVideo fuel w base64Image analysis = None).
Proof.
  intros Hprompt Hsubmit. unfold generateProductVideo.
  rewrite Hprompt, Hsubmit. split.
  - intros n final Hdone fuel.
    rewrite (pollLoop_done w n 0 operation final Hdone fuel).
    destruct (n <=? fuel); [|reflexivity].
    destruct (download w final) as [r evs]. reflexivity.
  - intros Hnever Hnow fuel.
    rewrite (pollLoop_neverDone w Hnever fuel 0 operation Hnow). reflexivity.
Qed.

Lemma slowWorld_doneAfter :
  doneAfter slowWorld 0 pending 3
    (finished (Some "https://provider.example/v/1?alt=media")).
Proof.
  split; [reflexivity|split; [reflexivity|]]. intros i Hi.
  destruct i as [|[|[|i]]]; [reflexivity..|lia].
Defined.

Lemma stuckWorld_neverDone : neverDone stuckWorld.
Proof. intros k operation. exists pending. split; reflexivity. Defined.

Lemma polling_terminates_witness :
  generateProductVideo 3 slowWorld photo mug =
    Some (Returned "blob:mp4-bytes",
          [ StatusUpdate "Initializing Video Engine..."; GenerateVideos;
            StatusUpdate "Analyzing product geometry..."; Sleep 8000;
            GetVideosOperation;
            StatusUpdate "Simulating cinematic lighting..."; Sleep 8000;
            GetVideosOperation;
            StatusUpdate "Extrapolating lifestyle environment..."; Sleep 8000;
            GetVideosOperation;
            Fetch "https://provider.example/v/1?alt=media&key=K" ]) /\
  generateProductVideo 2 slowWorld photo mug = None /\
  generateProductVideo 1000 stuckWorld photo mug = None.
Proof.
  pose proof (polling_terminates slowWorld photo mug pending
                eq_refl eq_refl) as [Hslow _].
  pose proof (polling_terminates stuckWorld photo mug pending
                eq_refl eq_refl) as [_ Hstuck].
  split; [|split].
  - exact (Hslow 3 _ slowWorld_doneAfter 3).
  - exact (Hslow 3 _ slowWorld_doneAfter 2).
  - exact (Hstuck stuckWorld_neverDone eq_refl 1000).
Defined.

(** ** After the loop *)

Lemma truthyString_Some (s : string) :
  s <> "" -> truthyString (Some s) = true.
Proof.
  intros Hs. simpl. destruct (String.eqb s "") eqn:E; [|reflexivity].
  apply String.eqb_eq in E. contradiction.
Qed.

(** C9.  When the prompt has been built: an exception of the submission or
    of a status query is the function's own failure; once the operation is
    done, the function throws the one error [Video generation failed - no URI]
    when the operation carries no video URI (absent or empty), without any
    fetch; otherwise it fetches the URI once, with the key appended, an
    exception of the fetch or of reading its body is the function's own
    failure, and else the result is the object URL of the body. *)
Theorem video_result (w : World) (base64Image : string) (analysis : JSON) :
  videoPrompt analysis = Returned tt ->
  (forall e fuel,
     generateVideos w = Threw e ->
     generateProductVideo fuel w base64Image analysis
       = Some (Threw e, submission)) /\
  (forall operation n e fuel,
     generateVideos w = Returned operation ->
     throwsAfter w 0 operation n e -> n < fuel ->
     generateProductVideo fuel w base64Image analysis
       = Some (Threw e, submission ++ cycles 0 (S n))) /\
  (forall operation n final fuel,
     generateVideos w = Returned operation ->
     doneAfter w 0 operation n final -> n <= fuel ->
     (truthyString (downloadLink final) = false ->
      generateProductVideo fuel w base64Image analysis
        = Some (Threw (Error "Video generation failed - no URI"),
                submission ++ cycles 0 n)) /\
     (forall link,
        downloadLink final = Some link -> link <> "" ->
        let url :=
          String.append link (String.append "&key=" (showString (API_KEY w))) in
        exists r,
          generateProductVideo fuel w base64Image analysis
            = Some (r, submission ++ cycles 0 n ++ [Fetch url]) /\
          (forall e, fetch w url = Threw e -> r = Threw e) /\
          (forall body e,
             fetch w url = Returned body -> blob body = Threw e ->
             r = Threw e) /\
          (forall body videoBlob,
             fetch w url = Returned body -> blob body = Returned videoBlob ->
             r = Returned (createObjectURL w videoBlob)))).
Proof.
  intros Hprompt. unfold generateProductVideo. rewrite Hprompt.
  split; [|split].
  - intros e fuel ->. reflexivity.
  - intros operation n e fuel -> Hthrows Hfuel.
    rewrite (pollLoop_throws w n 0 operation e Hthrows fuel Hfuel).
    reflexivity.
  - intros operation n final fuel -> Hdone Hfuel.
    rewrite (pollLoop_done w n 0 operation final Hdone fuel).
    apply Nat.leb_le in Hfuel. rewrite Hfuel. unfold download. split.
    + intros ->. rewrite app_nil_r. reflexivity.
    + intros link Hlink Hne. rewrite Hlink, (truthyString_Some link Hne).
      unfold downloadUrl. simpl showString at 1.
      eexists. split; [reflexivity|].
      split; [|split].
      * intros e ->. reflexivity.
      * intros body e -> Hblob. simpl. rewrite Hblob. reflexivity.
      * intros body videoBlob -> Hblob. simpl. rewrite Hblob. reflexivity.
Qed.

Lemma emptyWorld_doneAfter : doneAfter emptyWorld 0 (finished None) 0 (finished None).
Proof.
  split; [reflexivity|split; [reflexivity|]]. intros i Hi. lia.
Defined.

Lemma brokenWorld_throwsAfter :
  throwsAfter brokenWorld 0 pending 1
    (ProviderError (Some "503 Service Unavailable")).
Proof.
  split.
  - exists pending. split; reflexivity.
  - intros i Hi. destruct i as [|[|i]]; [reflexivity..|lia].
Defined.

Lemma video_result_witness :
  generateProductVideo 5 emptyWorld photo mug
    = Some (Threw (Error "Video generation failed - no URI"),
            [StatusUpdate "Initializing Video Engine..."; GenerateVideos]) /\
  generateProductVideo 5 brokenWorld photo mug
    = Some (Threw (ProviderError (Some "503 Service Unavailable")),
            [ StatusUpdate "Initializing Video Engine..."; GenerateVideos;
              StatusUpdate "Analyzing product geometry..."; Sleep 8000;
              GetVideosOperation;
              StatusUpdate "Simulating cinematic lighting..."; Sleep 8000;
              GetVideosOperation ]) /\
  exists r,
    generateProductVideo 5 slowWorld photo mug
      = Some (r, submission ++ cycles 0 3 ++
                 [Fetch "https://provider.example/v/1?alt=media&key=K"]) /\
    r = Returned "blob:mp4-bytes".
Proof.
  split; [|split].
  - destruct (video_result emptyWorld photo mug eq_refl) as (_ & _ & H).
    destruct (H (finished None) 0 (finished None) 5 eq_refl
                emptyWorld_doneAfter) as [Hnone _]; [lia|].
    exact (Hnone eq_refl).
  - destruct (video_result brokenWorld photo mug eq_refl) as (_ & H & _).
    refine (H pending 1 _ 5 eq_refl brokenWorld_throwsAfter _). lia.
  - destruct (video_result slowWorld photo mug eq_refl) as (_ & _ & H).
    destruct (H pending 3 _ 5 eq_refl slowWorld_doneAfter) as [_ Hlink];
      [lia|].
    destruct (Hlink "https://provider.example/v/1?alt=media" eq_refl)
      as (r & Hrun & _ & _ & Hok); [discriminate|].
    exists r. split; [exact Hrun|].
    exact (Hok {| blob := Returned "mp4-bytes" |} "mp4-bytes" eq_refl eq_refl).
Defined.

(** ** Analysis and credits *)

(** C2.  When the analysis call succeeds, [handleAnalysis] stores its result
    as the current analysis and the credits become [max 0 (credits - 1)];
    when it fails, credits and analysis stay as they were.  The same holds of
    the second half of the handler on whatever state it finds when the call
    settles. *)
Theorem analysis_stored_and_charged (image : string)
    (generateContent : Outcome GenerateContentResponse) (s : App.State) :
  (forall result,
     analyzeProductImage image generateContent = Returned result ->
     App.analysis (App.handleAnalysis image generateContent s) = result /\
     App.credits (App.handleAnalysis image generateContent s)
       = Z.max 0 (App.credits s - 1)) /\
  (forall e,
     analyzeProductImage image generateContent = Threw e ->
     App.analysis (App.handleAnalysis image generateContent s)
       = App.analysis s /\
     App.credits (App.handleAnalysis image generateContent s)
       = App.credits s) /\
  (forall result,
     App.analysis (App.analysisSettled (Returned result) s) = result /\
     App.credits (App.analysisSettled (Returned result) s)
       = Z.max 0 (App.credits s - 1)) /\
  (forall e,
     App.analysis (App.analysisSettled (Threw e) s) = App.analysis s /\
     App.credits (App.analysisSettled (Threw e) s) = App.credits s).
Proof.
  unfold App.handleAnalysis. split; [|split; [|split]].
  - intros result ->. split; reflexivity.
  - intros e ->. split; reflexivity.
  - intros result. split; reflexivity.
  - intros e. split; reflexivity.
Qed.

Lemma analysis_stored_and_charged_witness :
  App.analysis
    (App.handleAnalysis photo (Returned (textResponse (Some mugText))) App.init)
    = mug /\
  App.credits
    (App.handleAnalysis photo (Returned (textResponse (Some mugText))) App.init)
    = 2%Z /\
  App.credits
    (App.handleAnalysis photo (Threw (ProviderError None)) App.init) = 3%Z.
Proof.
  pose proof (analysis_stored_and_charged photo
                (Returned (textResponse (Some mugText))) App.init)
    as (Hok & _).
  pose proof (analysis_stored_and_charged photo
                (Threw (ProviderError None)) App.init)
    as (_ & Hfail & _).
  destruct (Hok mug) as [Ha Hc]; [vm_compute; reflexivity|].
  destruct (Hfail (ProviderError None) eq_refl) as [_ Hc'].
  split; [exact Ha|split; [exact Hc|exact Hc']].
Defined.

(** ** The key check before video generation *)

(** C8.  When the key check reports no selected key (the host page has no
    [aistudio] object, or [hasSelectedApiKey] resolves to false),
    [onGenerateVideo] opens the upgrade prompt and does nothing else: the
    service is not run (no status, no submission, no query, no fetch),
    whatever the fuel, and every other cell of the state, the loading flags
    among them, keeps its value. *)
Theorem video_needs_key (fuel : nat) (aistudio : option AIStudio) (w : World)
    (s : App.State) :
  App.hasKey aistudio = Returned false ->
  App.onGenerateVideo fuel aistudio w s
    = Some (App.setShowUpgradeModal true s, []) /\
  App.showUpgradeModal (App.setShowUpgradeModal true s) = true /\
  App.loading (App.setShowUpgradeModal true s) = App.loading s /\
  App.assets (App.setShowUpgradeModal true s) = App.assets s /\
  App.toastMessage (App.setShowUpgradeModal true s) = App.toastMessage s.
Proof.
  intros Hkey. unfold App.onGenerateVideo. rewrite Hkey.
  repeat split.
Qed.

Lemma video_needs_key_witness :
  App.onGenerateVideo 9 None slowWorld analysed
    = Some (App.setShowUpgradeModal true analysed, []) /\
  App.onGenerateVideo 9 (Some (studio false)) slowWorld analysed
    = Some (App.setShowUpgradeModal true analysed, []).
Proof.
  split.
  - exact (proj1 (video_needs_key 9 None slowWorld analysed eq_refl)).
  - exact (proj1 (video_needs_key 9 (Some (studio false)) slowWorld analysed
                    eq_refl)).
Defined.

(** ** The asset slots *)

Lemma statusUpdates_assets (evs : list Event) (s : App.State) :
  App.assets (App.statusUpdates evs s) = App.assets s.
Proof.
  revert s. induction evs as [|ev evs IH]; intros s; [reflexivity|].
  destruct ev; simpl; rewrite IH; reflexivity.
Qed.

(** The second half of a handler writes its own slot on success and no slot
    on failure; the first half writes none. *)
Lemma settled_frame (a : AssetAction) (r : Outcome (Result a))
    (s : App.State) :
  (forall sl, sl <> ownSlot a ->
     slot sl (App.assets (settled a r s)) = slot sl (App.assets s)) /\
  (forall e, r = Threw e -> App.assets (settled a r s) = App.assets s) /\
  (forall v, r = Returned v ->
     slot (ownSlot a) (App.assets (settled a r s)) = stored a v).
Proof.
  split; [|split].
  - intros sl Hsl.
    destruct a, sl; try (exfalso; apply Hsl; reflexivity);
      destruct r as [v|e]; simpl; try reflexivity;
      match goal with
      | |- context [App.entityNotFound ?x] => destruct (App.entityNotFound x)
      end; reflexivity.
  - intros e ->. destruct a; simpl; try reflexivity.
    destruct (App.entityNotFound e); reflexivity.
  - intros v ->. destruct a; reflexivity.
Qed.

Lemma requested_assets (a : AssetAction) (s : App.State) :
  App.assets (requested a s) = App.assets s.
Proof.
  destruct a; simpl;
    [ unfold App.imageRequested; destruct (App.noInput s)
    | unfold App.scriptRequested; destruct (negb _)
    | unfold App.bRollRequested; destruct (negb _)
    | unfold App.videoRequested; destruct (App.noInput s) ]; reflexivity.
Qed.

(** Every handler run stops at a guard, or is made of its two halves around
    the service call. *)
Lemma perform_cases (a : AssetAction) (h : Host) (s s' : App.State) :
  perform a h s = Some s' ->
  (callsService a h s = false /\ App.assets s' = App.assets s) \/
  (callsService a h s = true /\
   exists r, serviceCall a h s = Some r /\
             App.assets s' = App.assets (settled a r s)).
Proof.
  destruct a; simpl; intros H.
  - injection H as <-. unfold App.onGenerateImage.
    destruct (App.noInput s); [left; split; reflexivity|].
    right. split; [reflexivity|]. eexists. split; [reflexivity|].
    destruct (generateLifestyleImage _ _ _); reflexivity.
  - injection H as <-. unfold App.onWriteScript.
    destruct (truthy (App.analysis s)); [|left; split; reflexivity].
    right. split; [reflexivity|]. eexists. split; [reflexivity|].
    destruct (writeViralScript _ _); reflexivity.
  - injection H as <-. unfold App.onIdeateBRoll.
    destruct (truthy (App.analysis s)); [|left; split; reflexivity].
    right. split; [reflexivity|]. eexists. split; [reflexivity|].
    destruct (ideateBRoll _ _); reflexivity.
  - unfold App.onGenerateVideo in H.
    destruct (App.hasKey (aistudio h)) as [[|]|e].
    + destruct (App.noInput s);
        [injection H as <-; left; split; reflexivity|].
      destruct (generateProductVideo _ _ _ _) as [[r evs]|];
        [|discriminate].
      injection H as <-. right. split; [reflexivity|].
      exists r. split; [reflexivity|].
      destruct r as [v|e]; simpl;
        [|destruct (App.entityNotFound e); simpl];
        rewrite statusUpdates_assets; reflexivity.
    + injection H as <-. left. split; reflexivity.
    + injection H as <-. left. split; reflexivity.
Qed.

(** C3.  Whatever the host answers, the handler of each of the four asset
    actions, run to its end, leaves every field of the assets other than its
    own slot as it was; when its service call fails it leaves all the assets
    as they were; when the call is made and succeeds, its own slot holds the
    result.  The same holds of the second half of a handler on whatever state
    it finds when its call settles, which is what matters when several
    actions are under way at once; the first half writes no asset. *)
Theorem asset_slots_independent (a : AssetAction) (h : Host) (s : App.State) :
  (forall s',
     perform a h s = Some s' ->
     (forall sl, sl <> ownSlot a ->
        slot sl (App.assets s') = slot sl (App.assets s)) /\
     (forall e, serviceCall a h s = Some (Threw e) ->
        App.assets s' = App.assets s) /\
     (forall v, callsService a h s = true ->
        serviceCall a h s = Some (Returned v) ->
        slot (ownSlot a) (App.assets s') = stored a v)) /\
  (forall r : Outcome (Result a),
     (forall sl, sl <> ownSlot a ->
        slot sl (App.assets (settled a r s)) = slot sl (App.assets s)) /\
     (forall e, r = Threw e ->
        App.assets (settled a r s) = App.assets s) /\
     (forall v, r = Returned v ->
        slot (ownSlot a) (App.assets (settled a r s)) = stored a v)) /\
  App.assets (requested a s) = App.assets s.
Proof.
  split; [|split; [exact (fun r => settled_frame a r s)|exact (requested_assets a s)]].
  intros s' Hrun.
  destruct (perform_cases a h s s' Hrun)
    as [[Hguard Hsame]|(Hcalls & r & Hcall & Hsettled)].
  - rewrite Hsame, Hguard. repeat split. discriminate.
  - rewrite Hsettled.
    destruct (settled_frame a r s) as (Hother & Hfail & Hown).
    split; [exact Hother|split].
    + intros e He. rewrite Hcall in He. injection He as ->.
      apply (Hfail e). reflexivity.
    + intros v _ Hv. rewrite Hcall in Hv. injection Hv as ->.
      apply (Hown v). reflexivity.
Qed.

Lemma asset_slots_independent_witness :
  App.loading afterBrokenVideo = App.notLoading /\
  App.toastMessage afterBrokenVideo = Some "Video generation failed." /\
  CreativeAssets.lifestyleImage (App.assets afterBrokenVideo)
    = Some "data:image/png;base64,QUJD" /\
  CreativeAssets.tiktokScript (App.assets afterBrokenVideo)
    = Some "POV: your coffee stays hot" /\
  CreativeAssets.productVideoUrl (App.assets afterBrokenVideo) = None.
Proof.
  destruct (asset_slots_independent GenerateVideo brokenHost populated)
    as (Hrun & _).
  destruct (Hrun afterBrokenVideo eq_refl) as (_ & Hfail & _).
  rewrite (Hfail (ProviderError (Some "503 Service Unavailable")) eq_refl).
  repeat split.
Defined.

(** ** The lifestyle image *)

Lemma firstImage_none (ps : list Part) :
  firstImage ps = Threw (Error "No image generated") <->
  (forall part, In part ps -> inlineData part = None).
Proof.
  induction ps as [|p ps IH]; simpl.
  - split; [intros _ part []|reflexivity].
  - destruct (inlineData p) as [d|] eqn:Hp.
    + split; [discriminate|].
      intros H. specialize (H p (or_introl eq_refl)). congruence.
    + rewrite IH. split.
      * intros H part [<-|Hin]; [exact Hp|exact (H part Hin)].
      * intros H part Hin. apply H. right. exact Hin.
Qed.

Lemma firstImage_first (before after : list Part) (part : Part)
    (d : InlineData) :
  (forall p, In p before -> inlineData p = None) ->
  inlineData part = Some d ->
  firstImage (before ++ part :: after)
    = Returned (String.append "data:image/png;base64," (showString (data d))).
Proof.
  intros Hbefore Hpart. induction before as [|p before IH]; simpl.
  - rewrite Hpart. reflexivity.
  - rewrite (Hbefore p (or_introl eq_refl)). apply IH.
    intros q Hq. apply Hbefore. right. exact Hq.
Qed.

(** C4.  When the prompt has been built and the provider has answered,
    [generateLifestyleImage] throws [No image generated] exactly when no part
    of the answer (the parts of its first candidate) carries inline data;
    when some part does, the result is the data URL made from the first such
    part.  In the failing case [onGenerateImage] leaves the [lifestyleImage]
    slot as it was, shows the failure toast and clears its loading flag. *)
Theorem lifestyle_image_result (base64Image : string) (analysis : JSON)
    (response : GenerateContentResponse) :
  lifestylePrompt analysis = Returned tt ->
  (generateLifestyleImage base64Image analysis (Returned response)
     = Threw (Error "No image generated") <->
   (forall part, In part (responseParts response) -> inlineData part = None)) /\
  (forall before part d after,
     responseParts response = before ++ part :: after ->
     (forall p, In p before -> inlineData p = None) ->
     inlineData part = Some d ->
     generateLifestyleImage base64Image analysis (Returned response)
       = Returned (String.append "data:image/png;base64,"
                     (showString (data d)))) /\
  (forall s,
     App.noInput s = false -> App.analysis s = analysis ->
     (forall part, In part (responseParts response) -> inlineData part = None) ->
     CreativeAssets.lifestyleImage
       (App.assets (App.onGenerateImage (Returned response) s))
       = CreativeAssets.lifestyleImage (App.assets s) /\
     App.toastMessage (App.onGenerateImage (Returned response) s)
       = Some "Failed to generate image." /\
     generatingImage (App.loading (App.onGenerateImage (Returned response) s))
       = false).
Proof.
  intros Hprompt.
  assert (Hrun : forall image,
            generateLifestyleImage image analysis (Returned response)
              = firstImage (responseParts response)).
  { intros image. unfold generateLifestyleImage. rewrite Hprompt. reflexivity. }
  split; [|split].
  - rewrite Hrun. apply firstImage_none.
  - intros before part d after Hparts Hbefore Hpart.
    rewrite Hrun, Hparts. apply firstImage_first; assumption.
  - intros s Hinput <- Hnone. unfold App.onGenerateImage.
    rewrite Hinput, Hrun.
    rewrite (proj2 (firstImage_none _) Hnone). repeat split.
Qed.

Lemma lifestyle_image_result_witness :
  generateLifestyleImage photo mug
    (Returned (partsResponse [textPart; imagePart "QUJD"; imagePart "REVG"]))
    = Returned "data:image/png;base64,QUJD" /\
  generateLifestyleImage photo mug (Returned (partsResponse [textPart; textPart]))
    = Threw (Error "No image generated") /\
  CreativeAssets.lifestyleImage
    (App.assets
       (App.onGenerateImage (Returned (partsResponse [textPart])) analysed))
    = None /\
  App.toastMessage
    (App.onGenerateImage (Returned (partsResponse [textPart])) analysed)
    = Some "Failed to generate image.".
Proof.
  destruct (lifestyle_image_result photo mug
              (partsResponse [textPart; imagePart "QUJD"; imagePart "REVG"])
              eq_refl) as (_ & Hfirst & _).
  destruct (lifestyle_image_result photo mug
              (partsResponse [textPart; textPart]) eq_refl) as (Hnone & _).
  destruct (lifestyle_image_result photo mug (partsResponse [textPart])
              eq_refl) as (_ & _ & Hcaller).
  split; [|split].
  - apply (Hfirst [textPart] (imagePart "QUJD") {| data := Some "QUJD" |}
             [imagePart "REVG"]); [reflexivity| |reflexivity].
    intros p [<-|[]]. reflexivity.
  - apply (proj2 Hnone). intros part [<-|[<-|[]]]; reflexivity.
  - destruct (Hcaller analysed) as (Hslot & Htoast & _);
      [reflexivity|vm_compute; reflexivity| |].
    + intros part [<-|[]]. reflexivity.
    + split; [rewrite Hslot; reflexivity|exact Htoast].
Defined.

(** ** Script and B-roll *)

Lemma JSON_parse_throws (t : string) (e : JsError) :
  JSON_parse t = Threw e -> exists m, e = SyntaxError m.
Proof.
  unfold JSON_parse. intros H.
  destruct (parseText t) as [v rest| |].
  - destruct (skipWs rest); [discriminate|].
    injection H as <-. eexists. reflexivity.
  - injection H as <-. eexists. reflexivity.
  - injection H as <-. eexists. reflexivity.
Qed.

Lemma orString_falsy (x : option string) (d : string) :
  truthyString x = false -> orString x d = d.
Proof.
  destruct x as [t|]; simpl; [|reflexivity].
  destruct (String.eqb t ""); [reflexivity|discriminate].
Qed.

Lemma orString_truthy (t d : string) : t <> "" -> orString (Some t) d = t.
Proof.
  intros Ht. simpl. destruct (String.eqb t "") eqn:E; [|reflexivity].
  apply String.eqb_eq in E. contradiction.
Qed.

(** C5, as the code has it: the B-roll ideator throws on a text that is not
    JSON, and answers an absent text with the empty list, not three ideas. *)
Lemma script_and_broll_counterexample :
  isProductAnalysis mug = true /\
  ideateBRoll mug (Returned (textResponse (Some "Sure! Here are three ideas:")))
    = Threw (SyntaxError "Unexpected token") /\
  ideateBRoll mug (Returned (textResponse None)) = Returned (JArr []) /\
  ideateBRoll mug (Returned (textResponse (Some "{}"))) = Returned (JObj []).
Proof.
  split; [reflexivity|]. split; [vm_compute; reflexivity|].
  split; vm_compute; reflexivity.
Qed.

(** C5, amended.  When the provider has answered: the script writer, its
    prompt built, returns the text of the answer, or the placeholder
    [Failed to generate script.] when the text is absent or empty, and never
    throws.  The B-roll ideator, its prompt built, returns the empty list
    when the text is absent or empty, and the list of strings that the text
    is the JSON of, whatever its length; on a text that is not JSON it throws
    the [SyntaxError] of [JSON.parse], and [onIdeateBRoll] then shows
    [Failed to ideate B-roll.], clears its loading flag and leaves the assets
    as they were. *)
Theorem script_and_broll_results (analysis : JSON)
    (response : GenerateContentResponse) :
  (scriptPrompt analysis = Returned tt ->
   (forall t, text response = Some t -> t <> "" ->
      writeViralScript analysis (Returned response) = Returned t) /\
   (truthyString (text response) = false ->
      writeViralScript analysis (Returned response)
        = Returned "Failed to generate script.")) /\
  (bRollPrompt analysis = Returned tt ->
   (truthyString (text response) = false ->
      ideateBRoll analysis (Returned response) = Returned (JArr [])) /\
   (forall t items,
      text response = Some t -> t <> "" ->
      JSON_parse t = Returned (JArr items) ->
      isStringArray (Some (JArr items)) = true ->
      ideateBRoll analysis (Returned response) = Returned (JArr items)) /\
   (forall t e,
      text response = Some t -> t <> "" ->
      JSON_parse t = Threw e ->
      (exists m, e = SyntaxError m) /\
      ideateBRoll analysis (Returned response) = Threw e /\
      forall s,
        App.analysis s = analysis -> truthy analysis = true ->
        App.toastMessage (App.onIdeateBRoll (Returned response) s)
          = Some "Failed to ideate B-roll." /\
        App.assets (App.onIdeateBRoll (Returned response) s) = App.assets s /\
        ideatingBRoll (App.loading (App.onIdeateBRoll (Returned response) s))
          = false)).
Proof.
  split.
  - intros Hscript. unfold writeViralScript. rewrite Hscript. simpl. split.
    + intros t -> Ht. rewrite (orString_truthy t _ Ht). reflexivity.
    + intros Hno. rewrite (orString_falsy _ _ Hno). reflexivity.
  - intros Hbroll.
    assert (Hrun : ideateBRoll analysis (Returned response)
                   = JSON_parse (orString (text response) "[]")).
    { unfold ideateBRoll. rewrite Hbroll. reflexivity. }
    split; [|split].
    + intros Hno. rewrite Hrun, (orString_falsy _ _ Hno).
      vm_compute. reflexivity.
    + intros t items Ht Hne Hparse _.
      rewrite Hrun, Ht, (orString_truthy t _ Hne). exact Hparse.
    + intros t e Ht Hne Hparse.
      assert (Hthrow : ideateBRoll analysis (Returned response) = Threw e).
      { rewrite Hrun, Ht, (orString_truthy t _ Hne). exact Hparse. }
      split; [exact (JSON_parse_throws t e Hparse)|].
      split; [exact Hthrow|].
      intros s Hs Htruthy. unfold App.onIdeateBRoll.
      rewrite Hs, Htruthy, Hthrow. repeat split.
Qed.

Lemma script_and_broll_results_witness :
  writeViralScript mug (Returned (textResponse (Some "POV: your coffee stays hot")))
    = Returned "POV: your coffee stays hot" /\
  writeViralScript mug (Returned (textResponse None))
    = Returned "Failed to generate script." /\
  ideateBRoll mug (Returned (textResponse (Some "")))
    = Returned (JArr []) /\
  App.toastMessage
    (App.onIdeateBRoll
       (Returned (textResponse (Some "Sure! Here are three ideas:"))) populated)
    = Some "Failed to ideate B-roll." /\
  App.assets
    (App.onIdeateBRoll
       (Returned (textResponse (Some "Sure! Here are three ideas:"))) populated)
    = App.assets populated.
Proof.
  destruct (script_and_broll_results mug
              (textResponse (Some "POV: your coffee stays hot")))
    as (Hscript & _).
  destruct (Hscript eq_refl) as (Htext & _).
  destruct (script_and_broll_results mug (textResponse None)) as (Hscript' & _).
  destruct (Hscript' eq_refl) as (_ & Hdefault).
  destruct (script_and_broll_results mug (textResponse (Some "")))
    as (_ & Hbroll).
  destruct (Hbroll eq_refl) as (Hempty & _).
  destruct (script_and_broll_results mug
              (textResponse (Some "Sure! Here are three ideas:")))
    as (_ & Hbroll').
  destruct (Hbroll' eq_refl) as (_ & _ & Hthrow).
  destruct (Hthrow "Sure! Here are three ideas:"
              (SyntaxError "Unexpected token") eq_refl)
    as (_ & _ & Hcaller); [discriminate|vm_compute; reflexivity|].
  destruct (Hcaller populated) as (Htoast & Hassets & _);
    [vm_compute; reflexivity|reflexivity|].
  split; [apply (Htext _ eq_refl); discriminate|].
  split; [exact (Hdefault eq_refl)|].
  split; [exact (Hempty eq_refl)|].
  split; [exact Htoast|exact Hassets].
Defined.

(** ** The analysis client *)

(** An answer with no text resolves with the empty object, which has none of
    the five fields; the text [null] resolves with a value that is no object
    at all. *)
Lemma analysis_result_counterexample :
  analyzeProductImage photo (Returned (textResponse None)) = Returned (JObj []) /\
  isProductAnalysis (JObj []) = false /\
  analyzeProductImage photo (Returned (textResponse (Some "null")))
    = Returned JNull /\
  isProductAnalysis JNull = false.
Proof.
  split; [vm_compute; reflexivity|]. split; [reflexivity|].
  split; [vm_compute; reflexivity|reflexivity].
Qed.

(** The analysis client as the code has it: it fails with the provider's
    error when the provider call fails; otherwise it resolves with what
    [JSON.parse] makes of the answer's text, the empty object when the text
    is absent or empty, and fails with the [SyntaxError] of a text that is
    not JSON.  It fails in no other way, and it does not look at the parsed
    value. *)
Theorem analysis_result (base64Image : string)
    (generateContent : Outcome GenerateContentResponse) :
  (forall e, generateContent = Threw e ->
     analyzeProductImage base64Image generateContent = Threw e) /\
  (forall response t,
     generateContent = Returned response ->
     text response = Some t -> t <> "" ->
     analyzeProductImage base64Image generateContent = JSON_parse t) /\
  (forall response,
     generateContent = Returned response ->
     truthyString (text response) = false ->
     analyzeProductImage base64Image generateContent = Returned (JObj [])) /\
  (forall e, analyzeProductImage base64Image generateContent = Threw e ->
     generateContent = Threw e \/ exists m, e = SyntaxError m).
Proof.
  unfold analyzeProductImage. split; [|split; [|split]].
  - intros e ->. reflexivity.
  - intros response t -> Htext Ht. simpl.
    rewrite Htext, (orString_truthy t _ Ht). reflexivity.
  - intros response -> Hno. simpl. rewrite (orString_falsy _ _ Hno).
    vm_compute. reflexivity.
  - intros e He. destruct generateContent as [response|e']; simpl in He.
    + right. exact (JSON_parse_throws _ e He).
    + left. injection He as ->. reflexivity.
Qed.

Lemma analysis_result_witness :
  analyzeProductImage photo (Returned (textResponse (Some mugText)))
    = Returned mug /\
  analyzeProductImage photo (Threw (ProviderError (Some "429")))
    = Threw (ProviderError (Some "429")) /\
  analyzeProductImage photo (Returned (textResponse (Some "")))
    = Returned (JObj []).
Proof.
  destruct (analysis_result photo (Returned (textResponse (Some mugText))))
    as (_ & Hparse & _).
  destruct (analysis_result photo (Threw (ProviderError (Some "429"))))
    as (Hthrow & _).
  destruct (analysis_result photo (Returned (textResponse (Some ""))))
    as (_ & _ & Hempty & _).
  split; [|split].
  - rewrite (Hparse _ mugText eq_refl eq_refl); [|discriminate].
    exact JSON_parse_mugText.
  - exact (Hthrow _ eq_refl).
  - exact (Hempty _ eq_refl eq_refl).
Defined.

(** C6.  The claim holds of no run in which the provider's answer has no
    text: [analyzeProductImage] then resolves, with the empty object, which
    is no [ProductAnalysis]; [handleAnalysis] takes it for one, stores it,
    uses a credit and announces success. *)
Theorem analysis_without_text :
  analyzeProductImage photo (Returned (textResponse None))
    = Returned (JObj []) /\
  isProductAnalysis (JObj []) = false /\
  App.analysis
    (App.handleAnalysis photo (Returned (textResponse None)) App.init)
    = JObj [] /\
  App.credits
    (App.handleAnalysis photo (Returned (textResponse None)) App.init)
    = 2%Z /\
  App.toastMessage
    (App.handleAnalysis photo (Returned (textResponse None)) App.init)
    = Some "Analysis complete! 1 credit used.".
Proof.
  assert (H : analyzeProductImage photo (Returned (textResponse None))
              = Returned (JObj [])) by (vm_compute; reflexivity).
  split; [exact H|]. split; [reflexivity|].
  unfold App.handleAnalysis. rewrite H. repeat split.
Qed.

(** ** New campaign *)

(** C7, as the code has it: after one analysis the counter stands at 2, and
    starting a new campaign leaves it there, not at its initial 3; a flag of
    a request under way is not cleared either. *)
Lemma new_campaign_counterexample :
  App.credits App.init = 3%Z /\
  App.credits (App.newCampaign analysed) = 2%Z /\
  analyzing (App.loading (App.newCampaign (App.imageRead photo App.init)))
    = true.
Proof.
  split; [reflexivity|]. split; [vm_compute; reflexivity|reflexivity].
Qed.

(** C7, amended.  Starting a new campaign sets the uploaded image and the
    analysis to [null] and every slot of the assets to [null]; the credits,
    the loading flags, the toast, the video status and the upgrade prompt
    keep their values. *)
Theorem new_campaign_resets (s : App.State) :
  App.originalImage (App.newCampaign s) = None /\
  App.analysis (App.newCampaign s) = JNull /\
  App.assets (App.newCampaign s) = App.noAssets /\
  CreativeAssets.lifestyleImage (App.assets (App.newCampaign s)) = None /\
  CreativeAssets.tiktokScript (App.assets (App.newCampaign s)) = None /\
  CreativeAssets.bRollConcepts (App.assets (App.newCampaign s)) = JNull /\
  CreativeAssets.productVideoUrl (App.assets (App.newCampaign s)) = None /\
  App.credits (App.newCampaign s) = App.credits s /\
  App.loading (App.newCampaign s) = App.loading s /\
  App.toastMessage (App.newCampaign s) = App.toastMessage s /\
  App.videoStatus (App.newCampaign s) = App.videoStatus s /\
  App.showUpgradeModal (App.newCampaign s) = App.showUpgradeModal s.
Proof.
  unfold App.newCampaign, App.setAssets, App.setAnalysis,
    App.setOriginalImage. simpl. repeat split.
Qed.

(** ** Credits *)

(** The handlers are runs of the transition system. *)
Lemma handleFileUpload_run (file : option string)
    (g : Outcome GenerateContentResponse) (s : App.State) :
  App.handleFileUpload file g s =
    App.run
      (App.UploadRequested ::
       if (App.credits s <=? 0)%Z then []
       else match file with
            | Some base64 =>
                [ App.ImageRead base64;
                  App.AnalysisSettled (analyzeProductImage base64 g) ]
            | None => []
            end) s.
Proof.
  unfold App.handleFileUpload, App.run. simpl. unfold App.uploadRequested.
  destruct (App.credits s <=? 0)%Z; [reflexivity|].
  destruct file; reflexivity.
Qed.

Lemma handleSampleLoad_run (sample : Outcome string)
    (g : Outcome GenerateContentResponse) (s : App.State) :
  App.handleSampleLoad sample g s =
    App.run
      (App.SampleRequested ::
       if (App.credits s <=? 0)%Z then []
       else match sample with
            | Returned base64 =>
                [ App.ImageRead base64;
                  App.AnalysisSettled (analyzeProductImage base64 g) ]
            | Threw _ => [App.SampleFailed]
            end) s.
Proof.
  unfold App.handleSampleLoad, App.run. simpl. unfold App.sampleRequested.
  destruct (App.credits s <=? 0)%Z; [reflexivity|].
  destruct sample; reflexivity.
Qed.

Lemma statusUpdates_run (evs : list Event) (s : App.State) :
  App.statusUpdates evs s = App.run (statusActions evs) s.
Proof.
  revert s. induction evs as [|ev evs IH]; intros s; [reflexivity|].
  destruct ev; simpl; rewrite IH; reflexivity.
Qed.

Lemma run_app (xs ys : list App.Action) (s : App.State) :
  App.run (xs ++ ys) s = App.run ys (App.run xs s).
Proof. unfold App.run. apply fold_left_app. Qed.

Lemma onGenerateVideo_run (fuel : nat) (studio' : option AIStudio) (w : World)
    (s s' : App.State) (evs : list Event) :
  App.onGenerateVideo fuel studio' w s = Some (s', evs) ->
  exists actions, s' = App.run actions s.
Proof.
  unfold App.onGenerateVideo. intros H.
  destruct (App.hasKey studio') as [[|]|e].
  - destruct (App.noInput s) eqn:Hinput.
    + injection H as <- _. exists []. reflexivity.
    + destruct (generateProductVideo _ _ _ _) as [[r evs']|]; [|discriminate].
      injection H as <- _.
      exists (App.VideoRequested :: statusActions evs' ++ [App.VideoSettled r]).
      change (App.run (App.VideoRequested :: ?l) s)
        with (App.run l (App.videoRequested s)).
      rewrite run_app, <- statusUpdates_run. unfold App.videoRequested.
      rewrite Hinput. reflexivity.
  - injection H as <- _. exists [App.VideoDenied]. reflexivity.
  - injection H as <- _. exists []. reflexivity.
Qed.

Lemma perform_run (a : AssetAction) (h : Host) (s s' : App.State) :
  perform a h s = Some s' -> exists actions, s' = App.run actions s.
Proof.
  destruct a; simpl; intros H.
  - injection H as <-. unfold App.onGenerateImage.
    destruct (App.noInput s) eqn:Hinput; [exists []; reflexivity|].
    eexists [App.ImageRequested; App.ImageSettled _]. simpl.
    unfold App.imageRequested. rewrite Hinput. reflexivity.
  - injection H as <-. unfold App.onWriteScript.
    destruct (negb (truthy (App.analysis s))) eqn:Hinput;
      [exists []; reflexivity|].
    eexists [App.ScriptRequested; App.ScriptSettled _]. simpl.
    unfold App.scriptRequested. rewrite Hinput. reflexivity.
  - injection H as <-. unfold App.onIdeateBRoll.
    destruct (negb (truthy (App.analysis s))) eqn:Hinput;
      [exists []; reflexivity|].
    eexists [App.BRollRequested; App.BRollSettled _]. simpl.
    unfold App.bRollRequested. rewrite Hinput. reflexivity.
  - destruct (App.onGenerateVideo _ _ _ _) as [[s'' evs]|] eqn:Hrun;
      [|discriminate].
    injection H as <-. exact (onGenerateVideo_run _ _ _ _ _ _ Hrun).
Qed.

Lemma step_credits (a : App.Action) (s : App.State) :
  App.credits (App.step a s) =
    match a with
    | App.AnalysisSettled (Returned _) => Z.max 0 (App.credits s - 1)
    | App.Upgrade (Some host) =>
        match openSelectKey host with
        | Returned _ => 99%Z
        | Threw _ => App.credits s
        end
    | _ => App.credits s
    end.
Proof.
  destruct a; simpl; try reflexivity.
  - unfold App.uploadRequested. destruct (_ <=? _)%Z; reflexivity.
  - unfold App.sampleRequested. destruct (_ <=? _)%Z; reflexivity.
  - destruct r; reflexivity.
  - unfold App.imageRequested. destruct (App.noInput s); reflexivity.
  - destruct r; reflexivity.
  - unfold App.scriptRequested. destruct (negb _); reflexivity.
  - destruct r; reflexivity.
  - unfold App.bRollRequested. destruct (negb _); reflexivity.
  - destruct r; reflexivity.
  - unfold App.videoRequested. destruct (App.noInput s); reflexivity.
  - destruct r as [v|e]; simpl; [reflexivity|].
    destruct (App.entityNotFound e); reflexivity.
  - unfold App.handleUpgrade.
    match goal with
    | |- context [match ?x with Some _ => _ | None => _ end] =>
        destruct x as [host|]; [|reflexivity]
    end.
    destruct (openSelectKey host); reflexivity.
Qed.

Lemma step_credits_nonnegative (a : App.Action) (s : App.State) :
  (0 <= App.credits s)%Z -> (0 <= App.credits (App.step a s))%Z.
Proof.
  intros H. rewrite step_credits.
  destruct a as [| | | |[v|e]| | | | | | | | | | |[host|]| | | | |]; try lia.
  destruct (openSelectKey host); lia.
Qed.

Lemma run_credits_nonnegative (actions : list App.Action) (s : App.State) :
  (0 <= App.credits s)%Z -> (0 <= App.credits (App.run actions s))%Z.
Proof.
  revert s. induction actions as [|a actions IH]; intros s H; [exact H|].
  apply IH, step_credits_nonnegative, H.
Qed.

(** C10.  The credits start at 3; a step of the shell changes them only by
    a successful analysis, to [max 0 (credits - 1)], or by an upgrade whose
    key dialog returns, to 99; so they are never negative, after any sequence
    of steps from the initial state and after any handler run from such a
    state. *)
Theorem credits_nonnegative :
  App.credits App.init = 3%Z /\
  (forall a s,
     App.credits (App.step a s) =
       match a with
       | App.AnalysisSettled (Returned _) => Z.max 0 (App.credits s - 1)
       | App.Upgrade (Some host) =>
           match openSelectKey host with
           | Returned _ => 99%Z
           | Threw _ => App.credits s
           end
       | _ => App.credits s
       end) /\
  (forall actions, (0 <= App.credits (App.run actions App.init))%Z) /\
  (forall actions file sample g,
     (0 <= App.credits
             (App.handleFileUpload file g (App.run actions App.init)))%Z /\
     (0 <= App.credits
             (App.handleSampleLoad sample g (App.run actions App.init)))%Z) /\
  (forall actions a h s',
     perform a h (App.run actions App.init) = Some s' ->
     (0 <= App.credits s')%Z).
Proof.
  assert (Hinit : (0 <= App.credits App.init)%Z) by (simpl; lia).
  split; [reflexivity|]. split; [exact step_credits|].
  split; [|split].
  - intros actions. apply run_credits_nonnegative, Hinit.
  - intros actions file sample g.
    rewrite handleFileUpload_run, handleSampleLoad_run.
    split; apply run_credits_nonnegative, run_credits_nonnegative, Hinit.
  - intros actions a h s' Hrun.
    destruct (perform_run a h _ s' Hrun) as (more & ->).
    apply run_credits_nonnegative, run_credits_nonnegative, Hinit.
Qed.

Lemma credits_nonnegative_witness :
  App.credits
    (App.run [ App.AnalysisSettled (Returned mug);
               App.AnalysisSettled (Returned mug);
               App.AnalysisSettled (Returned mug);
               App.AnalysisSettled (Returned mug) ] App.init) = 0%Z /\
  (0 <= App.credits
          (App.run [ App.AnalysisSettled (Returned mug);
                     App.AnalysisSettled (Returned mug);
                     App.AnalysisSettled (Returned mug);
                     App.AnalysisSettled (Returned mug) ] App.init))%Z /\
  (0 <= App.credits afterBrokenVideo)%Z.
Proof.
  destruct credits_nonnegative as (_ & _ & Hrun & _ & Hperform).
  split; [reflexivity|]. split; [apply Hrun|].
  apply (Hperform
           [ App.UploadRequested; App.ImageRead photo;
             App.AnalysisSettled (Returned mug);
             App.ImageRequested;
             App.ImageSettled (Returned "data:image/png;base64,QUJD");
             App.ScriptRequested;
             App.ScriptSettled (Returned "POV: your coffee stays hot") ]
           GenerateVideo brokenHost).
  vm_compute. reflexivity.
Defined.

(** * Further properties of the services and of the shell *)

(** ** Prompts *)

Lemma isString_interpolate (x : option JSON) :
  isString x = true -> interpolate x = Returned tt.
Proof. destruct x as [[]|]; simpl; try discriminate; reflexivity. Qed.

Lemma strings_stringify (items : list JSON) :
  forallb (fun v => match v with JStr _ => true | _ => false end) items = true ->
  forallb stringifies items = true.
Proof.
  induction items as [|v items IH]; simpl; [reflexivity|].
  destruct v; simpl; try discriminate. exact IH.
Qed.

Lemma isStringArray_join (x : option JSON) :
  isStringArray x = true -> join x = Returned tt.
Proof.
  destruct x as [[]|]; simpl; try discriminate.
  intros H. rewrite (strings_stringify _ H). reflexivity.
Qed.

Lemma isStringArray_first (x : option JSON) :
  isStringArray x = true ->
  exists first, index0 x = Returned first /\ interpolate first = Returned tt.
Proof.
  destruct x as [[| | | |items|]|]; simpl; try discriminate.
  intros H. exists (hd_error items). split; [reflexivity|].
  destruct items as [|v items]; simpl; [reflexivity|].
  destruct v; simpl in *; try discriminate; reflexivity.
Qed.

(** X1.  For an analysis that is a [ProductAnalysis], none of the four
    prompts throws; so each of the three generators that take one request
    fails with the provider's own error when the provider call fails, and
    otherwise goes on to read the answer. *)
Theorem prompts_build (analysis : JSON) :
  isProductAnalysis analysis = true ->
  (lifestylePrompt analysis = Returned tt /\
   videoPrompt analysis = Returned tt /\
   scriptPrompt analysis = Returned tt /\
   bRollPrompt analysis = Returned tt) /\
  (forall base64Image e,
     generateLifestyleImage base64Image analysis (Threw e) = Threw e) /\
  (forall e, writeViralScript analysis (Threw e) = Threw e) /\
  (forall e, ideateBRoll analysis (Threw e) = Threw e) /\
  (forall base64Image response,
     generateLifestyleImage base64Image analysis (Returned response)
       = firstImage (responseParts response)).
Proof.
  intros H. destruct analysis as [| | | | |members]; try discriminate.
  simpl in H. repeat (apply andb_prop in H; destruct H as [H ?]).
  assert (Hl : lifestylePrompt (JObj members) = Returned tt).
  { unfold lifestylePrompt. simpl.
    rewrite !isString_interpolate by assumption. simpl.
    rewrite !isStringArray_join by assumption. reflexivity. }
  assert (Hs : scriptPrompt (JObj members) = Returned tt).
  { unfold scriptPrompt. simpl.
    rewrite !isString_interpolate by assumption. simpl.
    rewrite isStringArray_join by assumption. simpl.
    destruct (isStringArray_first (lookup "materials" members))
      as (first & -> & Hfirst); [assumption|]. exact Hfirst. }
  assert (Hb : bRollPrompt (JObj members) = Returned tt).
  { unfold bRollPrompt. simpl. apply isString_interpolate. assumption. }
  split; [split; [exact Hl|split; [|split; [exact Hs|exact Hb]]]|].
  - unfold videoPrompt. simpl.
    rewrite isString_interpolate by assumption. simpl.
    rewrite !isStringArray_join by assumption. reflexivity.
  - unfold generateLifestyleImage, writeViralScript, ideateBRoll.
    rewrite Hl, Hs, Hb. repeat split.
Qed.

Lemma prompts_build_witness :
  lifestylePrompt mug = Returned tt /\
  scriptPrompt mug = Returned tt /\
  ideateBRoll mug (Threw (ProviderError (Some "429")))
    = Threw (ProviderError (Some "429")).
Proof.
  destruct (prompts_build mug eq_refl)
    as ((Hl & _ & Hs & _) & _ & _ & Hb & _).
  split; [exact Hl|split; [exact Hs|exact (Hb _)]].
Defined.

Lemma interpolate_throws (x : option JSON) (e : JsError) :
  interpolate x = Threw e -> exists m, e = TypeError m.
Proof.
  destruct x as [v|]; simpl; [|discriminate].
  destruct (stringifies v); [discriminate|].
  intros H. injection H as <-. eexists. reflexivity.
Qed.

Ltac type_error := eexists; reflexivity.

(** X2.  For an analysis object with no [materials] member (the empty object
    among them), the image, script and video generators throw a [TypeError]
    while building their prompt, whatever the provider would answer; the
    video generator does so before its first status and its submission. *)
Theorem missing_materials_fails (members : list (string * JSON))
    (base64Image : string) (g : Outcome GenerateContentResponse)
    (w : World) (fuel : nat) :
  lookup "materials" members = None ->
  (exists m,
     generateLifestyleImage base64Image (JObj members) g
       = Threw (TypeError m)) /\
  (exists m, writeViralScript (JObj members) g = Threw (TypeError m)) /\
  (exists m,
     generateProductVideo fuel w base64Image (JObj members)
       = Some (Threw (TypeError m), [])).
Proof.
  intros Hm.
  split; [|split].
  - unfold generateLifestyleImage, lifestylePrompt. simpl. rewrite Hm.
    destruct (interpolate (lookup "productName" members)) as [[]|e] eqn:E1;
      simpl; [|destruct (interpolate_throws _ _ E1) as (m & ->); type_error].
    destruct (interpolate (lookup "productType" members)) as [[]|e] eqn:E2;
      simpl; [type_error|].
    destruct (interpolate_throws _ _ E2) as (m & ->). type_error.
  - unfold writeViralScript, scriptPrompt. simpl. rewrite Hm.
    destruct (interpolate (lookup "productName" members)) as [[]|e] eqn:E1;
      simpl; [|destruct (interpolate_throws _ _ E1) as (m & ->); type_error].
    destruct (interpolate (lookup "targetAudience" members)) as [[]|e] eqn:E2;
      simpl; [|destruct (interpolate_throws _ _ E2) as (m & ->); type_error].
    destruct (lookup "primaryColors" members) as [[| | | |items|]|];
      simpl; try type_error.
    destruct (forallb stringifies items); simpl; type_error.
  - unfold generateProductVideo, videoPrompt. simpl. rewrite Hm.
    destruct (interpolate (lookup "productName" members)) as [[]|e] eqn:E1;
      simpl; [type_error|].
    destruct (interpolate_throws _ _ E1) as (m & ->). type_error.
Qed.

Lemma missing_materials_fails_witness :
  (exists m,
     generateLifestyleImage photo (JObj [])
       (Returned (partsResponse [imagePart "QUJD"])) = Threw (TypeError m)) /\
  (exists m,
     generateProductVideo 7 slowWorld photo (JObj [("productName", JStr "Mug")])
       = Some (Threw (TypeError m), [])).
Proof.
  split.
  - exact (proj1 (missing_materials_fails [] photo
                    (Returned (partsResponse [imagePart "QUJD"]))
                    slowWorld 0 eq_refl)).
  - exact (proj2 (proj2 (missing_materials_fails
                           [("productName", JStr "Mug")] photo
                           (Threw (ProviderError None)) slowWorld 7 eq_refl))).
Defined.

Lemma analyzeProductImage_no_text (base64Image : string)
    (response : GenerateContentResponse) :
  truthyString (text response) = false ->
  analyzeProductImage base64Image (Returned response) = Returned (JObj []).
Proof.
  intros H. unfold analyzeProductImage. simpl.
  rewrite (orString_falsy _ _ H). vm_compute. reflexivity.
Qed.

(** X3.  An upload, made with credits left, whose analysis answer has no
    text is handled as a success: the empty object is stored as the
    analysis, a credit is taken, the success toast is set and the
    [analyzing] flag is cleared.  The page cannot be rendered in that state:
    evaluating its Intel section throws a [TypeError] at
    [analysis.primaryColors.map], as it does in every state whose analysis
    is an object without a [primaryColors] member while [analyzing] is
    false. *)
Theorem textless_analysis_crashes_render (image : string)
    (response : GenerateContentResponse) (s : App.State) :
  truthyString (text response) = false ->
  (0 < App.credits s)%Z ->
  (App.analysis
     (App.handleFileUpload (Some image) (Returned response) s) = JObj [] /\
   App.credits (App.handleFileUpload (Some image) (Returned response) s)
     = (App.credits s - 1)%Z /\
   App.toastMessage (App.handleFileUpload (Some image) (Returned response) s)
     = Some "Analysis complete! 1 credit used." /\
   analyzing
     (App.loading (App.handleFileUpload (Some image) (Returned response) s))
     = false /\
   intelSection (App.handleFileUpload (Some image) (Returned response) s)
     = Threw (TypeError "Cannot read properties of undefined (reading 'map')")) /\
  (forall s' members,
     App.analysis s' = JObj members ->
     lookup "primaryColors" members = None ->
     analyzing (App.loading s') = false ->
     intelSection s'
       = Threw (TypeError "Cannot read properties of undefined (reading 'map')")).
Proof.
  intros Htext Hcredits.
  assert (Hgeneral : forall s' members,
            App.analysis s' = JObj members ->
            lookup "primaryColors" members = None ->
            analyzing (App.loading s') = false ->
            intelSection s'
              = Threw (TypeError
                         "Cannot read properties of undefined (reading 'map')")).
  { intros s' members Ha Hc Hl. unfold intelSection.
    rewrite Hl, Ha. simpl. rewrite Hc. reflexivity. }
  split; [|exact Hgeneral].
  assert (Hs1 : App.handleFileUpload (Some image) (Returned response) s
                = App.analysisSettled (Returned (JObj []))
                    (App.analysisStarted
                       (App.setOriginalImage (Some image) s))).
  { unfold App.handleFileUpload, App.handleAnalysis.
    replace (App.credits s <=? 0)%Z with false
      by (symmetry; apply Z.leb_gt; exact Hcredits).
    rewrite (analyzeProductImage_no_text _ _ Htext). reflexivity. }
  rewrite Hs1.
  split; [reflexivity|]. split; [simpl; lia|].
  split; [reflexivity|]. split; [reflexivity|].
  apply (Hgeneral _ []); reflexivity.
Qed.

Lemma textless_analysis_crashes_render_witness :
  App.analysis
    (App.handleFileUpload (Some photo) (Returned (textResponse None)) App.init)
    = JObj [] /\
  App.credits
    (App.handleFileUpload (Some photo) (Returned (textResponse None)) App.init)
    = 2%Z /\
  intelSection
    (App.handleFileUpload (Some photo) (Returned (textResponse None)) App.init)
    = Threw (TypeError "Cannot read properties of undefined (reading 'map')") /\
  intelSection analysed = Returned tt.
Proof.
  destruct (textless_analysis_crashes_render photo (textResponse None)
              App.init eq_refl eq_refl)
    as ((Ha & Hc & _ & _ & Hrender) & _).
  split; [exact Ha|split; [exact Hc|split; [exact Hrender|]]].
  vm_compute. reflexivity.
Defined.

(** ** The upload gate and the quota *)

Lemma blocked_upload (file : option string)
    (g : Outcome GenerateContentResponse) (s : App.State) :
  (App.credits s <= 0)%Z ->
  App.handleFileUpload file g s = App.setShowUpgradeModal true s.
Proof.
  intros H. unfold App.handleFileUpload.
  replace (App.credits s <=? 0)%Z with true
    by (symmetry; apply Z.leb_le; exact H).
  reflexivity.
Qed.

Lemma setShowUpgradeModal_same (s : App.State) :
  App.showUpgradeModal s = true -> App.setShowUpgradeModal true s = s.
Proof. destruct s; simpl; intros ->; reflexivity. Qed.

Lemma blocked_uploads_open
    (files : list (string * Outcome GenerateContentResponse)) :
  forall s,
    (App.credits s <= 0)%Z -> App.showUpgradeModal s = true ->
    uploads files s = s.
Proof.
  unfold uploads. induction files as [|f files IH]; intros s Hc Hm; simpl;
    [reflexivity|].
  rewrite (blocked_upload _ _ _ Hc), (setShowUpgradeModal_same _ Hm).
  exact (IH s Hc Hm).
Qed.

Lemma uploads_credits
    (files : list (string * Outcome GenerateContentResponse)) :
  forall s,
    (0 <= App.credits s)%Z -> Forall analysed_ok files ->
    App.credits (uploads files s)
      = Z.max 0 (App.credits s - Z.of_nat (List.length files)).
Proof.
  unfold uploads. induction files as [|f files IH]; intros s Hc Hok.
  - simpl. lia.
  - inversion Hok as [|f' files' (v & Hv) Hrest]; subst.
    cbn [fold_left List.length]. rewrite IH; [| |exact Hrest].
    + unfold App.handleFileUpload, App.handleAnalysis. rewrite Hv.
      destruct (App.credits s <=? 0)%Z eqn:E; simpl.
      * apply Z.leb_le in E. lia.
      * apply Z.leb_gt in E. lia.
    + unfold App.handleFileUpload, App.handleAnalysis. rewrite Hv.
      destruct (App.credits s <=? 0)%Z; simpl; lia.
Qed.

(** X4.  Credits are a quota on successful uploads: after a sequence of
    uploads whose analyses all succeed, started with [c >= 0] credits, the
    credits are [max 0 (c - n)] for [n] uploads; an upload made with no
    credit left only opens the upgrade prompt, and so does any non-empty
    sequence of them: no image is stored and no analysis replaces the
    current one. *)
Theorem upload_quota
    (files : list (string * Outcome GenerateContentResponse))
    (s : App.State) :
  (0 <= App.credits s)%Z ->
  (Forall analysed_ok files ->
   App.credits (uploads files s)
     = Z.max 0 (App.credits s - Z.of_nat (List.length files))) /\
  (App.credits s = 0%Z -> files <> [] ->
   uploads files s = App.setShowUpgradeModal true s).
Proof.
  intros Hc. split.
  - exact (uploads_credits files s Hc).
  - intros Hzero Hne. destruct files as [|f files]; [contradiction|].
    unfold uploads. cbn [fold_left].
    rewrite blocked_upload by lia.
    apply (blocked_uploads_open files); [simpl; lia|reflexivity].
Qed.

Lemma upload_quota_witness :
  App.credits
    (uploads [ (photo, Returned (textResponse (Some mugText)));
               (photo, Returned (textResponse (Some "[]")));
               (photo, Returned (textResponse None));
               (photo, Returned (textResponse (Some mugText)));
               (photo, Returned (textResponse (Some mugText))) ] App.init)
    = 0%Z /\
  uploads [ (photo, Returned (textResponse (Some mugText))) ]
    (App.setCredits (fun _ => 0%Z) analysed)
    = App.setShowUpgradeModal true (App.setCredits (fun _ => 0%Z) analysed).
Proof.
  split.
  - refine (proj1 (upload_quota _ App.init _) _); [simpl; lia|].
    repeat constructor; eexists; vm_compute; reflexivity.
  - refine (proj2 (upload_quota _ _ _) _ _);
      [simpl; lia|reflexivity|discriminate].
Defined.

(** X5.  [handleUpgrade] does nothing when the page has no [aistudio] object
    or when its key dialog rejects.  When the dialog returns, the upgrade
    prompt is closed, the credits are 99 whatever they were, and the next
    [n <= 99] uploads with successful analyses all pass the gate, leaving
    [99 - n] credits. *)
Theorem upgrade_unlocks (s : App.State) :
  App.handleUpgrade None s = s /\
  (forall host e,
     openSelectKey host = Threw e -> App.handleUpgrade (Some host) s = s) /\
  (forall host,
     openSelectKey host = Returned tt ->
     App.showUpgradeModal (App.handleUpgrade (Some host) s) = false /\
     App.toastMessage (App.handleUpgrade (Some host) s)
       = Some "Pro features unlocked!" /\
     App.credits (App.handleUpgrade (Some host) s) = 99%Z /\
     forall files,
       Forall analysed_ok files -> List.length files <= 99 ->
       App.credits (uploads files (App.handleUpgrade (Some host) s))
         = (99 - Z.of_nat (List.length files))%Z).
Proof.
  split; [reflexivity|]. split.
  - intros host e He. unfold App.handleUpgrade. rewrite He. reflexivity.
  - intros host Hok. unfold App.handleUpgrade. rewrite Hok.
    split; [reflexivity|]. split; [reflexivity|]. split; [reflexivity|].
    intros files Hfiles Hlen. rewrite uploads_credits; [|simpl; lia|exact Hfiles].
    simpl App.credits. lia.
Qed.

Lemma upgrade_unlocks_witness :
  App.handleUpgrade (Some {| hasSelectedApiKey := Returned false;
                             openSelectKey := Threw (ProviderError None) |})
    analysed = analysed /\
  App.credits
    (uploads [ (photo, Returned (textResponse (Some mugText))) ]
       (App.handleUpgrade (Some (studio true))
          (App.setCredits (fun _ => 0%Z) analysed)))
    = 98%Z.
Proof.
  destruct (upgrade_unlocks analysed) as (_ & Hreject & _).
  destruct (upgrade_unlocks (App.setCredits (fun _ => 0%Z) analysed))
    as (_ & _ & Hok).
  split.
  - exact (Hreject {| hasSelectedApiKey := Returned false;
                      openSelectKey := Threw (ProviderError None) |}
             (ProviderError None) eq_refl).
  - destruct (Hok (studio true) eq_refl) as (_ & _ & _ & Hfiles).
    refine (Hfiles [ (photo, Returned (textResponse (Some mugText))) ] _ _).
    + repeat constructor. eexists. vm_compute. reflexivity.
    + simpl. lia.
Defined.

(** ** The loading flags *)

Lemma statusUpdates_loading (evs : list Event) (s : App.State) :
  App.loading (App.statusUpdates evs s) = App.loading s.
Proof.
  revert s. induction evs as [|ev evs IH]; intros s; [reflexivity|].
  destruct ev; simpl; rewrite IH; reflexivity.
Qed.

(** X6.  The handler of an asset action, run to its end, leaves the four
    loading flags of the other actions and of the analysis as they were;
    when it got to its service call its own flag is false at the end,
    whether the call succeeded or failed; when a guard stopped it, no flag
    was touched. *)
Theorem loading_flags_restored (a : AssetAction) (h : Host)
    (s s' : App.State) :
  perform a h s = Some s' ->
  (forall f, f <> ownFlag a ->
     flag f (App.loading s') = flag f (App.loading s)) /\
  (callsService a h s = true -> flag (ownFlag a) (App.loading s') = false) /\
  (callsService a h s = false -> App.loading s' = App.loading s).
Proof.
  destruct a; simpl; intros H.
  - injection H as <-. unfold App.onGenerateImage.
    destruct (App.noInput s); simpl;
      [split; [reflexivity|split; [discriminate|reflexivity]]|].
    split; [|split; [reflexivity|discriminate]].
    intros f Hf. destruct (generateLifestyleImage _ _ _);
      destruct f; try reflexivity; exfalso; apply Hf; reflexivity.
  - injection H as <-. unfold App.onWriteScript.
    destruct (truthy (App.analysis s)); simpl;
      [|split; [reflexivity|split; [discriminate|reflexivity]]].
    split; [|split; [reflexivity|discriminate]].
    intros f Hf. destruct (writeViralScript _ _);
      destruct f; try reflexivity; exfalso; apply Hf; reflexivity.
  - injection H as <-. unfold App.onIdeateBRoll.
    destruct (truthy (App.analysis s)); simpl;
      [|split; [reflexivity|split; [discriminate|reflexivity]]].
    split; [|split; [reflexivity|discriminate]].
    intros f Hf. destruct (ideateBRoll _ _);
      destruct f; try reflexivity; exfalso; apply Hf; reflexivity.
  - unfold App.onGenerateVideo in H.
    destruct (App.hasKey (aistudio h)) as [[|]|e];
      [|injection H as <-;
        split; [reflexivity|split; [discriminate|reflexivity]]..].
    destruct (App.noInput s); simpl;
      [injection H as <-;
       split; [reflexivity|split; [discriminate|reflexivity]]|].
    destruct (generateProductVideo _ _ _ _) as [[r evs]|]; [|discriminate].
    injection H as <-.
    assert (Hl : App.loading
                   (App.videoSettled r
                      (App.statusUpdates evs
                         (App.setLoading (App.withGeneratingVideo true) s)))
                 = App.withGeneratingVideo false (App.loading s)).
    { destruct r as [v|e]; simpl;
        [|destruct (App.entityNotFound e); simpl];
        rewrite statusUpdates_loading; reflexivity. }
    rewrite Hl. split; [|split; [reflexivity|discriminate]].
    intros f Hf. destruct f; try reflexivity. exfalso. apply Hf. reflexivity.
Qed.

Lemma loading_flags_restored_witness :
  flag GeneratingVideo (App.loading afterBrokenVideo) = false /\
  flag GeneratingImage (App.loading afterBrokenVideo)
    = flag GeneratingImage (App.loading populated).
Proof.
  destruct (loading_flags_restored GenerateVideo brokenHost populated
              afterBrokenVideo eq_refl) as (Hother & Hown & _).
  split; [exact (Hown eq_refl)|].
  apply Hother. discriminate.
Defined.

(** X7.  The [analyzing] flag.  Every run of [handleAnalysis] ends with the
    flag false, whatever the outcome.  A sample load whose fetch fails,
    made with credits left, sets the flag and shows its failure toast, and
    never clears the flag; no later step of the shell clears it either,
    except the settling of an analysis. *)
Theorem analyzing_flag (s : App.State) :
  (forall image g,
     analyzing (App.loading (App.handleAnalysis image g s)) = false) /\
  (forall e g,
     (0 < App.credits s)%Z ->
     App.handleSampleLoad (Threw e) g s
       = App.showToast "Failed to load sample image."
           (App.setLoading (App.withAnalyzing true) s) /\
     forall actions,
       Forall (fun a => forall r, a <> App.AnalysisSettled r) actions ->
       analyzing
         (App.loading (App.run actions (App.handleSampleLoad (Threw e) g s)))
         = true).
Proof.
  split.
  - intros image g. unfold App.handleAnalysis.
    destruct (analyzeProductImage image g); reflexivity.
  - intros e g Hc.
    assert (Hrun : App.handleSampleLoad (Threw e) g s
                   = App.showToast "Failed to load sample image."
                       (App.setLoading (App.withAnalyzing true) s)).
    { unfold App.handleSampleLoad.
      replace (App.credits s <=? 0)%Z with false
        by (symmetry; apply Z.leb_gt; exact Hc).
      reflexivity. }
    split; [exact Hrun|]. rewrite Hrun.
    assert (Hset : analyzing
                     (App.loading
                        (App.showToast "Failed to load sample image."
                           (App.setLoading (App.withAnalyzing true) s)))
                   = true) by reflexivity.
    generalize dependent (App.showToast "Failed to load sample image."
                            (App.setLoading (App.withAnalyzing true) s)).
    intros s0 _ Hs0 actions. revert s0 Hs0.
    induction actions as [|a actions IH]; intros s0 Hs0 Hall; [exact Hs0|].
    inversion Hall as [|a' actions' Ha Hrest]; subst.
    apply IH; [|exact Hrest].
    destruct a; simpl; try (exfalso; eapply Ha; reflexivity);
      unfold App.uploadRequested, App.sampleRequested, App.imageRequested,
        App.scriptRequested, App.bRollRequested, App.videoRequested,
        App.handleUpgrade;
      repeat match goal with
             | |- context [if ?b then _ else _] => destruct b
             | |- context [match ?x with _ => _ end] => destruct x
             end;
      first [exact Hs0|reflexivity].
Qed.

Lemma analyzing_flag_witness :
  analyzing
    (App.loading
       (App.run [App.NewCampaign; App.UploadRequested; App.ToastClosed]
          (App.handleSampleLoad (Threw (ProviderError None))
             (Returned (textResponse (Some mugText))) App.init)))
    = true.
Proof.
  destruct (analyzing_flag App.init) as (_ & Hfail).
  destruct (Hfail (ProviderError None)
              (Returned (textResponse (Some mugText)))) as (_ & Hstuck);
    [reflexivity|].
  apply Hstuck. repeat constructor; discriminate.
Defined.

(** ** The outcome of a video run in the shell *)

Lemma prefix_spec (sub s : string) :
  String.prefix sub s = true <-> exists post, s = String.append sub post.
Proof.
  revert s. induction sub as [|a sub IH]; intros s.
  - split; [intros _; exists s; reflexivity|intros _; destruct s; reflexivity].
  - destruct s as [|b s]; simpl;
      [split; [discriminate|intros (post & H); discriminate]|].
    destruct (Ascii.ascii_dec a b) as [->|Hab].
    + rewrite IH. split; intros (post & H); exists post.
      * rewrite H. reflexivity.
      * injection H as ->. reflexivity.
    + split; [discriminate|]. intros (post & H). injection H as H _.
      symmetry in H. contradiction.
Qed.

Lemma includes_here (s sub : string) :
  String.prefix sub s = true -> includes s sub = true.
Proof. intros H. destruct s; cbn [includes]; rewrite H; reflexivity. Qed.

Lemma includes_spec (s sub : string) :
  includes s sub = true <->
  exists pre post, s = String.append pre (String.append sub post).
Proof.
  split.
  - induction s as [|c s IH]; cbn [includes].
    + rewrite orb_false_r. intros H. apply prefix_spec in H as (post & H).
      exists "", post. exact H.
    + intros H. apply orb_true_iff in H as [H|H].
      * apply prefix_spec in H as (post & H). exists "", post. exact H.
      * destruct (IH H) as (pre & post & ->).
        exists (String c pre), post. reflexivity.
  - intros (pre & post & ->). induction pre as [|c pre IH].
    + apply includes_here, prefix_spec. exists post. reflexivity.
    + cbn [includes String.append]. rewrite IH. apply orb_true_r.
Qed.

(** X8.  What the shell shows when video generation fails.  An error whose
    message contains [Requested entity was not found] anywhere gives the
    toast [Session expired. Please re-link your key.] and opens the upgrade
    prompt; an error with no message, or with a message that does not
    contain the phrase, gives [Video generation failed.] and leaves the
    prompt as it was.  So does the service's own error for a finished
    operation without a URI.  In every case the assets are untouched and the
    [generatingVideo] flag is cleared. *)
Theorem video_failure_toasts (s : App.State) (e : JsError) :
  (forall pre post,
     errorMessage e
       = Some (String.append pre
                 (String.append "Requested entity was not found" post)) ->
     App.toastMessage (App.videoSettled (Threw e) s)
       = Some "Session expired. Please re-link your key." /\
     App.showUpgradeModal (App.videoSettled (Threw e) s) = true) /\
  (errorMessage e = None \/
   (exists m,
      errorMessage e = Some m /\
      forall pre post,
        m <> String.append pre
               (String.append "Requested entity was not found" post)) ->
   App.toastMessage (App.videoSettled (Threw e) s)
     = Some "Video generation failed." /\
   App.showUpgradeModal (App.videoSettled (Threw e) s)
     = App.showUpgradeModal s) /\
  App.toastMessage
    (App.videoSettled (Threw (Error "Video generation failed - no URI")) s)
    = Some "Video generation failed." /\
  App.assets (App.videoSettled (Threw e) s) = App.assets s /\
  generatingVideo (App.loading (App.videoSettled (Threw e) s)) = false.
Proof.
  split; [|split; [|split; [reflexivity|]]].
  - intros pre post Hm. unfold App.videoSettled, App.entityNotFound.
    rewrite Hm.
    rewrite (proj2 (includes_spec _ _)) by (exists pre, post; reflexivity).
    split; reflexivity.
  - intros H. unfold App.videoSettled, App.entityNotFound.
    destruct H as [->|(m & -> & Hm)]; [split; reflexivity|].
    destruct (includes m "Requested entity was not found") eqn:E;
      [|split; reflexivity].
    apply includes_spec in E as (pre & post & ->).
    exfalso. exact (Hm pre post eq_refl).
  - unfold App.videoSettled. destruct (App.entityNotFound e);
      split; reflexivity.
Qed.

Lemma video_failure_toasts_witness :
  App.toastMessage
    (App.videoSettled
       (Threw (ProviderError
                 (Some "404 NOT_FOUND: Requested entity was not found.")))
       populated)
    = Some "Session expired. Please re-link your key." /\
  App.toastMessage
    (App.videoSettled (Threw (ProviderError None)) populated)
    = Some "Video generation failed.".
Proof.
  destruct (video_failure_toasts populated
              (ProviderError
                 (Some "404 NOT_FOUND: Requested entity was not found.")))
    as (Hexpired & _).
  destruct (video_failure_toasts populated (ProviderError None))
    as (_ & Hother & _).
  split.
  - exact (proj1 (Hexpired "404 NOT_FOUND: " "." eq_refl)).
  - exact (proj1 (Hother (or_introl eq_refl))).
Defined.

Lemma statusUpdates_videoStatus (evs : list Event) (s : App.State) :
  App.videoStatus (App.statusUpdates evs s)
    = lastStatus evs (App.videoStatus s).
Proof.
  revert s. induction evs as [|ev evs IH]; intros s; [reflexivity|].
  destruct ev; simpl; rewrite IH; reflexivity.
Qed.

Lemma lastStatus_app (xs ys : list Event) (current : string) :
  lastStatus (xs ++ ys) current = lastStatus ys (lastStatus xs current).
Proof.
  revert current. induction xs as [|ev xs IH]; intros current; [reflexivity|].
  destruct ev; simpl; apply IH.
Qed.

Lemma lastStatus_cycles (n : nat) :
  forall k current,
    lastStatus (cycles k n) current =
      match n with
      | O => current
      | S m => nth ((k + m) mod 6) loadingMessages ""
      end.
Proof.
  induction n as [|n IH]; intros k current; [reflexivity|].
  unfold cycles. cbn [seq flat_map]. rewrite lastStatus_app.
  fold (cycles (S k) n). rewrite IH. destruct n as [|n].
  - simpl lastStatus. rewrite Nat.add_0_r. reflexivity.
  - f_equal. f_equal. lia.
Qed.

Lemma statusUpdates_other (evs : list Event) (s : App.State) :
  App.credits (App.statusUpdates evs s) = App.credits s /\
  App.showUpgradeModal (App.statusUpdates evs s) = App.showUpgradeModal s /\
  App.analysis (App.statusUpdates evs s) = App.analysis s /\
  App.originalImage (App.statusUpdates evs s) = App.originalImage s.
Proof.
  revert s. induction evs as [|ev evs IH]; intros s;
    [repeat split|].
  destruct ev; simpl; try apply IH.
  destruct (IH (App.setVideoStatus status s)) as (H1 & H2 & H3 & H4).
  rewrite H1, H2, H3, H4. repeat split.
Qed.

(** X9.  A whole successful video run in the shell.  With a key selected, an
    image and an analysis from which the prompt builds, a provider that
    reports the job done as the answer to status query number [n], and a
    download that works, [onGenerateVideo] ends with the object URL in the
    [productVideoUrl] slot, the success toast, the [generatingVideo] flag
    cleared, and as status line the last message the loop showed: message
    [(n - 1) mod 6] of the list, or [Initializing Video Engine...] when the
    job was done at once.  Credits and the upgrade prompt are untouched. *)
Theorem video_run_succeeds (fuel : nat) (host : AIStudio) (w : World)
    (s : App.State) (operation final : Operation) (n : nat)
    (link : string) (body : FetchResponse) (videoBlob : string) :
  hasSelectedApiKey host = Returned true ->
  App.noInput s = false ->
  videoPrompt (App.analysis s) = Returned tt ->
  generateVideos w = Returned operation ->
  doneAfter w 0 operation n final ->
  n <= fuel ->
  downloadLink final = Some link -> link <> "" ->
  fetch w (downloadUrl w link) = Returned body ->
  blob body = Returned videoBlob ->
  exists s',
    App.onGenerateVideo fuel (Some host) w s
      = Some (s', submission ++ cycles 0 n ++ [Fetch (downloadUrl w link)]) /\
    CreativeAssets.productVideoUrl (App.assets s')
      = Some (createObjectURL w videoBlob) /\
    App.toastMessage s' = Some "Campaign video generated!" /\
    generatingVideo (App.loading s') = false /\
    App.videoStatus s' =
      match n with
      | O => "Initializing Video Engine..."
      | S m => nth (m mod 6) loadingMessages ""
      end /\
    App.credits s' = App.credits s /\
    App.showUpgradeModal s' = App.showUpgradeModal s.
Proof.
  intros Hkey Hinput Hprompt Hsubmit Hdone Hfuel Hlink Hne Hfetch Hblob.
  unfold App.onGenerateVideo, generateProductVideo. simpl App.hasKey.
  rewrite Hkey, Hinput, Hprompt, Hsubmit.
  rewrite (pollLoop_done w n 0 operation final Hdone fuel).
  apply Nat.leb_le in Hfuel. rewrite Hfuel.
  unfold download. rewrite Hlink, (truthyString_Some link Hne).
  simpl showString. rewrite Hfetch. simpl bind. rewrite Hblob. simpl bind.
  eexists. split; [reflexivity|].
  set (evs := submission ++ cycles 0 n ++ [Fetch (downloadUrl w link)]).
  set (s0 := App.setLoading (App.withGeneratingVideo true) s).
  destruct (statusUpdates_other evs s0) as (Hc & Hm & _ & _).
  split; [reflexivity|]. split; [reflexivity|]. split; [reflexivity|].
  split; [|split].
  - change (App.videoStatus (App.statusUpdates evs s0) = match n with
                                                          | O => "Initializing Video Engine..."
                                                          | S m => nth (m mod 6) loadingMessages ""
                                                          end).
    rewrite statusUpdates_videoStatus. unfold evs.
    rewrite !lastStatus_app, lastStatus_cycles. destruct n; reflexivity.
  - change (App.credits (App.statusUpdates evs s0) = App.credits s).
    rewrite Hc. reflexivity.
  - change (App.showUpgradeModal (App.statusUpdates evs s0)
            = App.showUpgradeModal s).
    rewrite Hm. reflexivity.
Qed.

Lemma video_run_succeeds_witness :
  exists s',
    App.onGenerateVideo 4 (Some (studio true)) slowWorld analysed
      = Some (s', submission ++ cycles 0 3 ++
                  [Fetch "https://provider.example/v/1?alt=media&key=K"]) /\
    CreativeAssets.productVideoUrl (App.assets s') = Some "blob:mp4-bytes" /\
    App.videoStatus s' = "Extrapolating lifestyle environment...".
Proof.
  destruct (video_run_succeeds 4 (studio true) slowWorld analysed pending
              (finished (Some "https://provider.example/v/1?alt=media")) 3
              "https://provider.example/v/1?alt=media"
              {| blob := Returned "mp4-bytes" |} "mp4-bytes"
              eq_refl eq_refl eq_refl eq_refl slowWorld_doneAfter)
    as (s' & Hrun & Hurl & _ & _ & Hstatus & _);
    [lia|reflexivity|discriminate|reflexivity|reflexivity|].
  exists s'. split; [exact Hrun|split; [exact Hurl|exact Hstatus]].
Defined.

(** ** What a video run does to the outside *)

Lemma pollLoop_shape (w : World) (fuel : nat) :
  forall operation k r evs,
    pollLoop fuel w operation k = Some (r, evs) ->
    exists n, n <= fuel /\ evs = cycles k n /\
              match r with
              | Returned final => done final = true
              | Threw _ => 0 < n
              end.
Proof.
  induction fuel as [|fuel IH]; intros operation k r evs H; simpl in H.
  - destruct (done operation) eqn:Hd; [|discriminate].
    injection H as <- <-. exists 0. repeat split; [lia|exact Hd].
  - destruct (done operation) eqn:Hd.
    + injection H as <- <-. exists 0. repeat split; [lia|exact Hd].
    + destruct (getVideosOperation w k operation) as [operation'|e].
      * destruct (pollLoop fuel w operation' (S k)) as [[r' evs']|] eqn:Hrec;
          [|discriminate].
        injection H as <- <-.
        destruct (IH _ _ _ _ Hrec) as (n & Hn & -> & Hr).
        exists (S n). split; [lia|]. split; [reflexivity|].
        destruct r'; [exact Hr|lia].
      * injection H as <- <-. exists 1. split; [lia|].
        split; [unfold cycles; simpl; reflexivity|lia].
Qed.

(** X10.  Whenever [generateProductVideo] settles, what it did to the
    outside is one of: nothing at all, and it threw (the prompt); or the
    first status and the submission, then some number of whole turns of the
    loop (status, 8000 ms, one query), then at most one fetch, which comes
    last.  It threw unless that fetch was made, and a run that returns a
    URL made exactly that one fetch: it never fetches before the job is
    done, never submits twice, and never queries without sleeping first. *)
Theorem video_trace_shape (fuel : nat) (w : World) (base64Image : string)
    (analysis : JSON) (r : Outcome string) (evs : list Event) :
  generateProductVideo fuel w base64Image analysis = Some (r, evs) ->
  ((evs = [] /\ exists e, r = Threw e) \/
   (exists n, n <= fuel /\
      ((evs = submission ++ cycles 0 n /\ exists e, r = Threw e) \/
       (exists final link,
          done final = true /\ downloadLink final = Some link /\
          evs = submission ++ cycles 0 n ++ [Fetch (downloadUrl w link)])))) /\
  (forall url, r = Returned url ->
     exists n link,
       evs = submission ++ cycles 0 n ++ [Fetch (downloadUrl w link)]).
Proof.
  intros H.
  assert (Hshape :
    (evs = [] /\ exists e, r = Threw e) \/
    (exists n, n <= fuel /\
       ((evs = submission ++ cycles 0 n /\ exists e, r = Threw e) \/
        (exists final link,
           done final = true /\ downloadLink final = Some link /\
           evs = submission ++ cycles 0 n ++ [Fetch (downloadUrl w link)])))).
  { unfold generateProductVideo in H.
    destruct (videoPrompt analysis) as [[]|e].
    - destruct (generateVideos w) as [operation|e].
      + destruct (pollLoop fuel w operation 0) as [[[final|e] evs']|] eqn:Hloop;
          [| |discriminate].
        * destruct (pollLoop_shape _ _ _ _ _ _ Hloop) as (n & Hn & -> & Hd).
          unfold download in H.
          destruct (downloadLink final) as [link|] eqn:Hlink; simpl in H.
          -- destruct (String.eqb link "") eqn:E; simpl in H;
               injection H as <- <-; right; exists n; (split; [exact Hn|]).
             ++ left. rewrite app_nil_r. split; [reflexivity|].
                eexists. reflexivity.
             ++ right. exists final, link. repeat split; assumption.
          -- injection H as <- <-. right. exists n. split; [exact Hn|].
             left. rewrite app_nil_r. split; [reflexivity|].
             eexists. reflexivity.
        * destruct (pollLoop_shape _ _ _ _ _ _ Hloop) as (n & Hn & -> & _).
          injection H as <- <-. right. exists n. split; [exact Hn|].
          left. split; [reflexivity|]. eexists. reflexivity.
      + injection H as <- <-. right. exists 0. split; [lia|].
        left. split; [reflexivity|]. eexists. reflexivity.
    - injection H as <- <-. left. split; [reflexivity|].
      eexists. reflexivity. }
  split; [exact Hshape|].
  intros url ->.
  destruct Hshape as [(_ & e & He)|(n & _ & [(_ & e & He)|(final & link & _ & _ & Hevs)])];
    try discriminate.
  exists n, link. exact Hevs.
Qed.

Lemma video_trace_shape_witness :
  exists n link,
    [ StatusUpdate "Initializing Video Engine..."; GenerateVideos;
      StatusUpdate "Analyzing product geometry..."; Sleep 8000;
      GetVideosOperation;
      StatusUpdate "Simulating cinematic lighting..."; Sleep 8000;
      GetVideosOperation;
      StatusUpdate "Extrapolating lifestyle environment..."; Sleep 8000;
      GetVideosOperation;
      Fetch "https://provider.example/v/1?alt=media&key=K" ]
    = submission ++ cycles 0 n ++ [Fetch (downloadUrl slowWorld link)].
Proof.
  exact (proj2 (video_trace_shape 3 slowWorld photo mug
                  (Returned "blob:mp4-bytes") _ eq_refl)
           "blob:mp4-bytes" eq_refl).
Defined.

(** ** Invariants of the shell *)

Ltac step_cases :=
  unfold App.uploadRequested, App.sampleRequested, App.imageRequested,
    App.scriptRequested, App.bRollRequested, App.videoRequested,
    App.handleUpgrade;
  repeat match goal with
         | |- context [if ?b then _ else _] => destruct b
         | |- context [match ?x with _ => _ end] => destruct x
         end.

Lemma step_original_slot (a : App.Action) (s : App.State) :
  CreativeAssets.originalImage (App.assets s) = None ->
  CreativeAssets.originalImage (App.assets (App.step a s)) = None.
Proof.
  intros H. destruct a; simpl; step_cases; first [exact H|reflexivity].
Qed.

Lemma step_credits_bound (a : App.Action) (s : App.State) :
  (App.credits s <= 99)%Z -> (App.credits (App.step a s) <= 99)%Z.
Proof.
  intros H. rewrite step_credits.
  destruct a as [| | | |[v|e]| | | | | | | | | | |[host|]| | | | |]; try lia.
  destruct (openSelectKey host); lia.
Qed.

Lemma run_invariants (actions : list App.Action) (s : App.State) :
  (App.credits s <= 99)%Z /\
  CreativeAssets.originalImage (App.assets s) = None ->
  (App.credits (App.run actions s) <= 99)%Z /\
  CreativeAssets.originalImage (App.assets (App.run actions s)) = None.
Proof.
  revert s. induction actions as [|a actions IH]; intros s [Hc Ho];
    [split; assumption|].
  apply IH. split;
    [apply step_credits_bound, Hc|apply step_original_slot, Ho].
Qed.

(** X11.  Two things the shell never does, whatever the user and the
    provider do: the credits never exceed 99, and the [originalImage] field
    of the assets is never written (the uploaded image lives in the state
    cell of the same name only).  This holds after every sequence of steps
    from the initial state, and after every upload, sample load and asset
    action run from such a state. *)
Theorem shell_never (actions : list App.Action) :
  ((App.credits (App.run actions App.init) <= 99)%Z /\
   CreativeAssets.originalImage (App.assets (App.run actions App.init))
     = None) /\
  (forall file sample g,
     ((App.credits
         (App.handleFileUpload file g (App.run actions App.init)) <= 99)%Z /\
      CreativeAssets.originalImage
        (App.assets (App.handleFileUpload file g (App.run actions App.init)))
        = None) /\
     ((App.credits
         (App.handleSampleLoad sample g (App.run actions App.init)) <= 99)%Z /\
      CreativeAssets.originalImage
        (App.assets (App.handleSampleLoad sample g (App.run actions App.init)))
        = None)) /\
  (forall a h s',
     perform a h (App.run actions App.init) = Some s' ->
     (App.credits s' <= 99)%Z /\
     CreativeAssets.originalImage (App.assets s') = None).
Proof.
  assert (Hinit : (App.credits App.init <= 99)%Z /\
                  CreativeAssets.originalImage (App.assets App.init) = None)
    by (split; [simpl; lia|reflexivity]).
  pose proof (run_invariants actions App.init Hinit) as Hrun.
  split; [exact Hrun|split].
  - intros file sample g.
    rewrite handleFileUpload_run, handleSampleLoad_run.
    split; apply run_invariants, Hrun.
  - intros a h s' Hperform.
    destruct (perform_run a h _ s' Hperform) as (more & ->).
    apply run_invariants, Hrun.
Qed.

Lemma shell_never_witness :
  (App.credits afterBrokenVideo <= 99)%Z /\
  CreativeAssets.originalImage (App.assets afterBrokenVideo) = None.
Proof.
  destruct (shell_never
              [ App.UploadRequested; App.ImageRead photo;
                App.AnalysisSettled (Returned mug);
                App.ImageRequested;
                App.ImageSettled (Returned "data:image/png;base64,QUJD");
                App.ScriptRequested;
                App.ScriptSettled (Returned "POV: your coffee stays hot") ])
    as (_ & _ & Hperform).
  apply (Hperform GenerateVideo brokenHost). vm_compute. reflexivity.
Defined.

(** ** The reference of a lifestyle image *)

Lemma firstImage_prefix (ps : list Part) (url : string) :
  firstImage ps = Returned url ->
  exists part d rest,
    In part ps /\ inlineData part = Some d /\
    url = String.append "data:image/png;base64," rest /\
    rest = match data d with Some bytes => bytes | None => "undefined" end.
Proof.
  induction ps as [|p ps IH]; simpl; [discriminate|].
  destruct (inlineData p) as [d|] eqn:Hp.
  - intros H. injection H as <-. exists p, d, (showString (data d)).
    repeat split; [left; reflexivity|exact Hp].
  - intros H. destruct (IH H) as (part & d & rest & Hin & Hd & Hurl & Hrest).
    exists part, d, rest. repeat split; [right; exact Hin|assumption..].
Qed.

(** X12.  Whatever [generateLifestyleImage] returns is a PNG data URL: the
    fixed prefix [data:image/png;base64,] followed by the [data] of a part
    of the answer that has inline data, or by the word [undefined] when
    that part's inline data has no [data].  Accordingly [onGenerateImage]
    either leaves the [lifestyleImage] slot as it was or puts such a URL in
    it. *)
Theorem lifestyle_reference (base64Image : string) (analysis : JSON)
    (g : Outcome GenerateContentResponse) :
  (forall url,
     generateLifestyleImage base64Image analysis g = Returned url ->
     exists response part d rest,
       g = Returned response /\ In part (responseParts response) /\
       inlineData part = Some d /\
       url = String.append "data:image/png;base64," rest /\
       rest = match data d with Some bytes => bytes | None => "undefined" end) /\
  (forall s,
     CreativeAssets.lifestyleImage (App.assets (App.onGenerateImage g s))
       = CreativeAssets.lifestyleImage (App.assets s) \/
     exists rest,
       CreativeAssets.lifestyleImage (App.assets (App.onGenerateImage g s))
         = Some (String.append "data:image/png;base64," rest)).
Proof.
  assert (Hurl : forall image a url,
            generateLifestyleImage image a g = Returned url ->
            exists response part d rest,
              g = Returned response /\ In part (responseParts response) /\
              inlineData part = Some d /\
              url = String.append "data:image/png;base64," rest /\
              rest = match data d with
                     | Some bytes => bytes
                     | None => "undefined"
                     end).
  { intros image a url. unfold generateLifestyleImage.
    destruct (lifestylePrompt a) as [[]|e]; [|discriminate].
    destruct g as [response|e]; [|discriminate]. simpl. intros H.
    destruct (firstImage_prefix _ _ H) as (part & d & rest & H1 & H2 & H3 & H4).
    exists response, part, d, rest. repeat split; assumption. }
  split; [exact (Hurl base64Image analysis)|].
  intros s. unfold App.onGenerateImage.
  destruct (App.noInput s); [left; reflexivity|].
  destruct (generateLifestyleImage _ _ g) as [url|e] eqn:E;
    [|left; reflexivity].
  destruct (Hurl _ _ _ E) as (_ & _ & _ & rest & _ & _ & _ & -> & _).
  right. exists rest. reflexivity.
Qed.

Lemma lifestyle_reference_witness :
  exists response part d rest,
    Returned (partsResponse [textPart; {| inlineData := Some {| data := None |} |}])
      = Returned response /\
    In part (responseParts response) /\
    inlineData part = Some d /\
    "data:image/png;base64,undefined"
      = String.append "data:image/png;base64," rest /\
    rest = match data d with Some bytes => bytes | None => "undefined" end.
Proof.
  exact (proj1 (lifestyle_reference photo mug
                  (Returned (partsResponse
                     [textPart; {| inlineData := Some {| data := None |} |}])))
           "data:image/png;base64,undefined" eq_refl).
Defined.

(** ** The buttons of the asset actions *)

Lemma clickable_spec (a : AssetAction) (s : App.State) :
  clickable a s =
    truthyString (App.originalImage s) && truthy (App.analysis s)
    && negb (flag (ownFlag a) (App.loading s)).
Proof.
  unfold clickable, assetButton.
  destruct (truthyString (App.originalImage s)); [|reflexivity].
  destruct (App.loading s) as [f1 f2 f3 f4 f5].
  destruct a; simpl; destruct (truthy (App.analysis s));
    destruct f1, f2, f3, f4, f5; reflexivity.
Qed.





(** ** After New Campaign *)

(** X14.  Starting a new campaign disarms the asset actions: none of the
    four buttons can be clicked, and a handler run all the same stops at its
    guard without reaching the service and without touching the state; only
    the video handler, whose key check comes first, may open the upgrade
    prompt.  Starting a new campaign twice is the same as once. *)
Theorem new_campaign_disarms (s : App.State) (h : Host) :
  (forall a, clickable a (App.newCampaign s) = false) /\
  (forall a,
     callsService a h (App.newCampaign s) = false /\
     (perform a h (App.newCampaign s) = Some (App.newCampaign s) \/
      (a = GenerateVideo /\
       perform a h (App.newCampaign s)
         = Some (App.setShowUpgradeModal true (App.newCampaign s))))) /\
  App.newCampaign (App.newCampaign s) = App.newCampaign s.
Proof.
  split; [|split; [|reflexivity]].
  - intros a. rewrite clickable_spec. reflexivity.
  - intros a. destruct a; simpl; try (split; [reflexivity|left; reflexivity]).
    unfold App.onGenerateVideo.
    destruct (App.hasKey (aistudio h)) as [[|]|e]; simpl;
      (split; [reflexivity|]);
      [left; reflexivity|right; split; reflexivity|left; reflexivity].
Qed.

(** ** The image payload *)

Lemma splitComma_whole (s : string) :
  hasComma s = false -> splitComma s = [s].
Proof.
  induction s as [|c s IH]; simpl; [reflexivity|].
  destruct (Ascii.eqb c ","); simpl; [discriminate|].
  intros H. rewrite (IH H). reflexivity.
Qed.

Lemma splitComma_head (header rest : string) :
  hasComma header = false ->
  splitComma (String.append header (String "," rest))
    = header :: splitComma rest.
Proof.
  induction header as [|c header IH]; simpl; [reflexivity|].
  destruct (Ascii.eqb c ","); simpl; [discriminate|].
  intros H. rewrite (IH H). reflexivity.
Qed.

Lemma orString_empty (x : option string) (d : string) :
  orString x d = "" -> d = "".
Proof.
  destruct x as [t|]; simpl; [|trivial].
  destruct (String.eqb t "") eqn:E; [trivial|].
  intros ->. discriminate.
Qed.

(** X15.  The image bytes sent to the provider.  For a data URL, a header
    and a body with one comma between them, they are the body; what follows
    a second comma is dropped.  A string without a comma is sent whole, and
    so is, header and comma included, a data URL whose body is empty.  The
    payload is empty only for the empty string. *)
Theorem image_payload (header body : string) :
  hasComma header = false -> hasComma body = false ->
  (body <> "" ->
   imagePayload (String.append header (String "," body)) = body) /\
  (forall more,
     body <> "" ->
     imagePayload
       (String.append header (String "," (String.append body (String "," more))))
       = body) /\
  imagePayload (String.append header ",") = String.append header "," /\
  imagePayload body = body /\
  (forall s, imagePayload s = "" <-> s = "").
Proof.
  intros Hh Hb. unfold imagePayload.
  split; [|split; [|split; [|split]]].
  - intros Hne. rewrite (splitComma_head _ _ Hh), (splitComma_whole _ Hb).
    simpl. apply orString_truthy, Hne.
  - intros more Hne.
    rewrite (splitComma_head _ _ Hh), (splitComma_head _ _ Hb).
    simpl nth_error. apply orString_truthy, Hne.
  - rewrite (splitComma_head _ _ Hh). reflexivity.
  - rewrite (splitComma_whole _ Hb). reflexivity.
  - intros s. split; [apply orString_empty|intros ->; reflexivity].
Qed.

Lemma image_payload_witness :
  imagePayload photo = "iVBORw0KGgo=" /\
  imagePayload "data:image/png;base64," = "data:image/png;base64,".
Proof.
  destruct (image_payload "data:image/png;base64" "iVBORw0KGgo="
              eq_refl eq_refl) as (Hbody & _ & Hempty & _).
  split; [apply Hbody; discriminate|exact Hempty].
Defined.
